(** * WebGPUBufferManager: buffer creation, aligned upload, read-back and
      deferred release

    A shallow embedding of [WebGPUBufferManager] (Engines/WebGPU) together
    with the small part of the JavaScript and WebGPU platform it relies on:
    32-bit bitwise operators, typed-array construction and copying, and the
    device operations [createBuffer], [queue.writeBuffer], [getMappedRange]
    and [destroy].

    JavaScript numbers that hold byte counts and offsets are modelled as [Z];
    the bitwise operators go through [ToInt32] as the language prescribes.
    An [ArrayBuffer] is the list of its bytes. *)

From Stdlib Require Import ZArith Lia.
From Stdlib Require Import Init.Byte.
From stdpp Require Import base numbers list gmap strings.

Local Open Scope Z_scope.

(** ** JavaScript platform model *)

Module Js.

(** The exceptions the modelled operations can raise.  A WebGPU validation
    error is not a JavaScript exception (it is reported through the
    device's error scope and the operation has no effect); it is kept in
    the same type so that a call that did not write is visible. *)
Inductive Error : Type :=
| RangeError
| TypeError
| OperationError
| GPUValidationError.

Inductive outcome (A : Type) : Type :=
| Ok (a : A)
| Throw (e : Error).
Arguments Ok {A} a.
Arguments Throw {A} e.

Definition obind {A B} (x : outcome A) (f : A -> outcome B) : outcome B :=
  match x with
  | Ok a => f a
  | Throw e => Throw e
  end.

(** [ToInt32] of an integral number: reduce modulo 2^32 into
    [-2^31, 2^31). *)
Definition ToInt32 (x : Z) : Z :=
  let m := x mod 2 ^ 32 in
  if 2 ^ 31 <=? m then m - 2 ^ 32 else m.

(** [a & b] and [~a]. *)
Definition bitand (a b : Z) : Z := Z.land (ToInt32 a) (ToInt32 b).
Definition bitnot (a : Z) : Z := Z.lnot (ToInt32 a).

Definition byteLengthOf (b : list byte) : Z := Z.of_nat (length b).

(** An [ArrayBufferView]: a window on an [ArrayBuffer]. *)
Record ArrayBufferView : Type := mkView {
  buffer : list byte;
  byteOffset : Z;
  byteLength : Z
}.

(** [new Uint8Array(n)]: a fresh zero-filled buffer. *)
Definition newUint8Array (n : Z) : outcome (list byte) :=
  if n <? 0 then Throw RangeError
  else Ok (replicate (Z.to_nat n) x00).

(** [new Uint8Array(buf, off, len)]: the bytes seen through the view. *)
Definition uint8Window (buf : list byte) (off len : Z) : outcome (list byte) :=
  if (off <? 0) || (len <? 0) || (byteLengthOf buf <? off + len)
  then Throw RangeError
  else Ok (take (Z.to_nat len) (drop (Z.to_nat off) buf)).

(** [target.set(source)] on byte arrays, both starting at index 0. *)
Definition setBytes (target source : list byte) : outcome (list byte) :=
  if byteLengthOf target <? byteLengthOf source then Throw RangeError
  else Ok (source ++ drop (length source) target).

(** [a[i]] on a [Uint8Array] over the whole buffer ([undefined] out of
    range) and [a[i] = v] (ignored out of range).  An [undefined] stored
    into a [Uint8Array] becomes 0. *)
Definition getByte (a : list byte) (i : Z) : option byte :=
  if i <? 0 then None else a !! Z.to_nat i.

Definition setByte (a : list byte) (i : Z) (v : byte) : list byte :=
  if i <? 0 then a else <[Z.to_nat i := v]> a.

Definition storeByte (a : list byte) (i : Z) (v : option byte) : list byte :=
  setByte a i (default x00 v).

End Js.

Import Js.

(** Well-formed views: the window lies in the buffer. *)
Definition viewInBuffer (d : ArrayBufferView) : Prop :=
  0 <= byteOffset d /\ 0 <= byteLength d /\
  byteOffset d + byteLength d <= byteLengthOf (Js.buffer d).

(** ** Data model *)

(** [Constants.TEXTURETYPE_*], as far as the manager distinguishes them. *)
Inductive TextureType : Type :=
| TEXTURETYPE_UNSIGNED_BYTE
| TEXTURETYPE_FLOAT
| TEXTURETYPE_HALF_FLOAT
| TEXTURETYPE_OTHER (code : Z).

Record Engine : Type := mkEngine {
  uniqueId : Z;
  isDisposed : bool
}.

(** A [GPUBuffer] is named by its identity; the device keeps its state. *)
Definition GPUBuffer : Type := nat.

Record GPUBufferState : Type := mkGPUBufferState {
  size : Z;
  contents : list byte;
  destroyed : bool
}.

Record GPUBufferDescriptor : Type := mkDescriptor {
  desc_size : Z;
  desc_usage : Z;
  desc_mappedAtCreation : bool
}.

(** [WebGPUDataBuffer]: the reference-counted handle.  Handles are objects
    shared between their holders, so they live in a store and are named by
    [DataBufferRef]. *)
Definition DataBufferRef : Type := nat.

Record WebGPUDataBuffer : Type := mkDataBuffer {
  underlyingResource : GPUBuffer;
  references : Z;
  capacity : Z;
  engineId : Z
}.

(** The manager, its engine and device, and the store of handles. *)
Record State : Type := mkState {
  _engine : Engine;
  deviceBuffers : gmap GPUBuffer GPUBufferState;
  deviceNext : GPUBuffer;
  destroyCalls : list GPUBuffer;
  _deferredReleaseBuffers : list GPUBuffer;
  dataBuffers : gmap DataBufferRef WebGPUDataBuffer;
  dataBufferCounter : DataBufferRef
}.

Definition with_engine (e : Engine) (s : State) : State :=
  mkState e (deviceBuffers s) (deviceNext s) (destroyCalls s)
          (_deferredReleaseBuffers s) (dataBuffers s) (dataBufferCounter s).

Definition with_deviceBuffers (d : gmap GPUBuffer GPUBufferState) (s : State) : State :=
  mkState (_engine s) d (deviceNext s) (destroyCalls s)
          (_deferredReleaseBuffers s) (dataBuffers s) (dataBufferCounter s).

Definition with_deviceNext (n : GPUBuffer) (s : State) : State :=
  mkState (_engine s) (deviceBuffers s) n (destroyCalls s)
          (_deferredReleaseBuffers s) (dataBuffers s) (dataBufferCounter s).

Definition with_destroyCalls (l : list GPUBuffer) (s : State) : State :=
  mkState (_engine s) (deviceBuffers s) (deviceNext s) l
          (_deferredReleaseBuffers s) (dataBuffers s) (dataBufferCounter s).

Definition with_deferred (q : list GPUBuffer) (s : State) : State :=
  mkState (_engine s) (deviceBuffers s) (deviceNext s) (destroyCalls s)
          q (dataBuffers s) (dataBufferCounter s).

Definition with_dataBuffers (h : gmap DataBufferRef WebGPUDataBuffer) (s : State) : State :=
  mkState (_engine s) (deviceBuffers s) (deviceNext s) (destroyCalls s)
          (_deferredReleaseBuffers s) h (dataBufferCounter s).

Definition with_dataBufferCounter (n : DataBufferRef) (s : State) : State :=
  mkState (_engine s) (deviceBuffers s) (deviceNext s) (destroyCalls s)
          (_deferredReleaseBuffers s) (dataBuffers s) n.

(** [new WebGPUBufferManager(engine, device)] on a device without buffers. *)
Definition constructor (engine : Engine) : State :=
  mkState engine ∅ 0%nat [] [] ∅ 0%nat.

(** ** State and exception monad *)

Definition M (A : Type) : Type := State -> outcome A * State.

Definition ret {A} (a : A) : M A := fun s => (Ok a, s).

Definition bind {A B} (m : M A) (f : A -> M B) : M B :=
  fun s =>
    match m s with
    | (Ok a, s') => f a s'
    | (Throw e, s') => (Throw e, s')
    end.

Definition throw {A} (e : Error) : M A := fun s => (Throw e, s).

Definition lift {A} (x : outcome A) : M A := fun s => (x, s).

Definition get : M State := fun s => (Ok s, s).

Definition modify (f : State -> State) : M unit := fun s => (Ok tt, f s).

Notation "'let*' x ':=' m 'in' k" := (bind m (fun x => k))
  (at level 10, x name, m at level 100, k at level 200).
Notation "'do' m 'then' k" := (bind m (fun _ => k))
  (at level 10, m at level 100, k at level 200).

(** A computation that leaves the store of handles as it found it. *)
Definition keepsHandles {A : Type} (m : M A) : Prop :=
  forall s, dataBuffers (snd (m s)) = dataBuffers s /\
            dataBufferCounter (snd (m s)) = dataBufferCounter s.

(** ** Device operations *)

Module Device.

(** [device.createBuffer(descriptor)]: a fresh zero-initialised buffer.
    The size is a [GPUSize64] with [EnforceRange]: a negative size is a
    [TypeError]. *)
Definition createBuffer (d : GPUBufferDescriptor) : M GPUBuffer :=
  if desc_size d <? 0 then throw TypeError
  else if desc_mappedAtCreation d && negb (desc_size d mod 4 =? 0) then throw RangeError
  else
    let* s := get in
    let g := deviceNext s in
    do modify (fun s =>
                 with_deviceNext (S g)
                   (with_deviceBuffers
                      (<[g := mkGPUBufferState (desc_size d)
                                (replicate (Z.to_nat (desc_size d)) x00) false]>
                         (deviceBuffers s)) s)) then
    ret g.

(** The bytes [data[dataOffset .. dataOffset+n)] written over
    [c[bufferOffset .. bufferOffset+n)]. *)
Definition splice (c : list byte) (bufferOffset : Z) (data : list byte)
           (dataOffset n : Z) : list byte :=
  take (Z.to_nat bufferOffset) c
    ++ take (Z.to_nat n) (drop (Z.to_nat dataOffset) data)
    ++ drop (Z.to_nat (bufferOffset + n)) c.

(** The state in which buffer [g], so far [b], has received that write. *)
Definition written (s : State) (g : GPUBuffer) (b : GPUBufferState)
           (bufferOffset : Z) (data : list byte) (dataOffset n : Z) : State :=
  with_deviceBuffers
    (<[g := mkGPUBufferState (size b)
              (splice (contents b) bufferOffset data dataOffset n)
              (destroyed b)]> (deviceBuffers s)) s.

(** [device.queue.writeBuffer(buffer, bufferOffset, data, dataOffset, size)]
    with [data] an [ArrayBuffer], so that offsets and size count bytes.
    Content-timeline checks raise; device-timeline validation (a live
    buffer, a 4-aligned offset, the range inside the buffer) makes the
    write a no-op reported as [GPUValidationError]. *)
Definition writeBuffer (g : GPUBuffer) (bufferOffset : Z) (data : list byte)
           (dataOffset n : Z) : M unit :=
  if (bufferOffset <? 0) || (dataOffset <? 0) || (n <? 0) then throw TypeError
  else if (byteLengthOf data <? dataOffset + n) || negb (n mod 4 =? 0)
  then throw OperationError
  else
    let* s := get in
    match deviceBuffers s !! g with
    | Some b =>
        if destroyed b || negb (bufferOffset mod 4 =? 0) || (size b <? bufferOffset + n)
        then throw GPUValidationError
        else modify (fun s => written s g b bufferOffset data dataOffset n)
    | None => throw GPUValidationError
    end.

(** [buffer.getMappedRange(offset, size)] once [mapAsync] has been
    fulfilled for the same range: a copy of the mapped bytes. *)
Definition getMappedRange (g : GPUBuffer) (offset n : Z) : M (list byte) :=
  let* s := get in
  match deviceBuffers s !! g with
  | Some b =>
      if (offset <? 0) || (n <? 0) then throw TypeError
      else if negb (offset mod 8 =? 0) || negb (n mod 4 =? 0)
              || (size b <? offset + n) || destroyed b
      then throw OperationError
      else ret (take (Z.to_nat n) (drop (Z.to_nat offset) (contents b)))
  | None => throw OperationError
  end.

(** [buffer.destroy()]: never fails, and is recorded. *)
Definition destroy (g : GPUBuffer) : M unit :=
  modify (fun s =>
            with_destroyCalls (destroyCalls s ++ [g])
              (with_deviceBuffers
                 (match deviceBuffers s !! g with
                  | Some b => <[g := mkGPUBufferState (size b) (contents b) true]>
                                (deviceBuffers s)
                  | None => deviceBuffers s
                  end) s)).

(** A direct look at a byte window of a device buffer. *)
Definition readWindow (s : State) (g : GPUBuffer) (offset n : Z) : option (list byte) :=
  b ← deviceBuffers s !! g;
  if (offset <? 0) || (n <? 0) || (size b <? offset + n) then None
  else Some (take (Z.to_nat n) (drop (Z.to_nat offset) (contents b))).

End Device.

(** ** The buffer manager *)

Section WebGPUBufferManager.

(** [FromHalfFloat] (Misc/textureTools) is kept abstract: a parameter that
    sends the 16 bits of a half float to the 32 bits of the [Float32Array]
    element that ends up stored. *)
Variable FromHalfFloat : Z -> Z.

(** What [releaseBuffer] can be given: a raw [GPUBuffer] or a handle.  The
    type guard [_IsGPUBuffer] tells them apart. *)
Inductive BufferArg : Type :=
| RawBuffer (g : GPUBuffer)
| DataBufferArg (r : DataBufferRef).

Definition _IsGPUBuffer (b : BufferArg) : bool :=
  match b with
  | RawBuffer _ => true
  | DataBufferArg _ => false
  end.

(** [createRawBuffer]'s first argument; [isView] in [createBuffer] is the
    case distinction on it. *)
Inductive ViewOrSize : Type :=
| OfView (v : ArrayBufferView)
| OfSize (n : Z).

Definition requestedLength (x : ViewOrSize) : Z :=
  match x with
  | OfView v => byteLength v
  | OfSize n => n
  end.

(** [(n + 3) & ~3] *)
Definition alignedLength (n : Z) : Z := bitand (n + 3) (bitnot 3).

(** The label of the descriptor is a diagnostic string built from a table
    of usage names; it does not influence the buffer and is left out. *)
Definition createRawBuffer (viewOrSize : ViewOrSize) (flags : Z)
           (mappedAtCreation : bool) : M GPUBuffer :=
  let alignedLength := alignedLength (requestedLength viewOrSize) in
  let verticesBufferDescriptor := mkDescriptor alignedLength flags mappedAtCreation in
  Device.createBuffer verticesBufferDescriptor.

Definition setRawData (buffer : GPUBuffer) (dstByteOffset : Z) (src : ArrayBufferView)
           (srcByteOffset byteLength : Z) : M unit :=
  let srcByteOffset := srcByteOffset + byteOffset src in
  Device.writeBuffer buffer dstByteOffset (Js.buffer src) srcByteOffset byteLength.

(** The source actually handed to [setRawData]: either the caller's view
    or the zero-padded temporary copy. *)
Definition effectiveSource (src : ArrayBufferView)
           (srcByteOffset originalByteLength byteLength : Z)
  : outcome (ArrayBufferView * Z) :=
  let backingBufferSize := byteLengthOf (Js.buffer src) - byteOffset src in
  if backingBufferSize <? byteLength then
    obind (newUint8Array byteLength) (fun tmpBuffer =>
    obind (uint8Window (Js.buffer src) (byteOffset src + srcByteOffset) originalByteLength)
          (fun window =>
    obind (setBytes tmpBuffer window) (fun tmpBuffer =>
    Ok (mkView tmpBuffer 0 byteLength, 0))))
  else Ok (src, srcByteOffset).

(** Reading the object behind a handle.  A reference that names no object
    does not arise from [createBuffer]; it is reported as a [TypeError]. *)
Definition lookupDataBuffer (r : DataBufferRef) : M WebGPUDataBuffer :=
  let* s := get in
  match dataBuffers s !! r with
  | Some d => ret d
  | None => throw TypeError
  end.

(** [byteLength || src.byteLength - srcByteOffset], [dstByteOffset & 3] and
    [(byteLength + startPre + 3) & ~3]. *)
Definition effectiveLength (src : ArrayBufferView) (srcByteOffset byteLength : Z) : Z :=
  if byteLength =? 0 then Js.byteLength src - srcByteOffset else byteLength.

Definition startPre (dstByteOffset : Z) : Z := bitand dstByteOffset 3.

Definition widenedLength (byteLength startPre : Z) : Z :=
  bitand (byteLength + startPre + 3) (bitnot 3).

Definition setSubData (dataBuffer : DataBufferRef) (dstByteOffset : Z)
           (src : ArrayBufferView) (srcByteOffset byteLength : Z) : M unit :=
  let* d := lookupDataBuffer dataBuffer in
  let buffer := underlyingResource d in
  let byteLength := effectiveLength src srcByteOffset byteLength in
  let startPre := startPre dstByteOffset in
  let srcByteOffset := srcByteOffset - startPre in
  let dstByteOffset := dstByteOffset - startPre in
  let originalByteLength := byteLength in
  let byteLength := widenedLength byteLength startPre in
  let* es := lift (effectiveSource src srcByteOffset originalByteLength byteLength) in
  setRawData buffer dstByteOffset (fst es) (snd es) byteLength.

Definition createBuffer (viewOrSize : ViewOrSize) (flags : Z) : M DataBufferRef :=
  let* s := get in
  let dataBuffer := dataBufferCounter s in
  do modify (with_dataBufferCounter (S dataBuffer)) then
  let* raw := createRawBuffer viewOrSize flags false in
  let* s := get in
  do modify (with_dataBuffers
               (<[dataBuffer := mkDataBuffer raw 1 (requestedLength viewOrSize)
                                  (uniqueId (_engine s))]> (dataBuffers s))) then
  do (match viewOrSize with
      | OfView v => setSubData dataBuffer 0 v 0 0
      | OfSize _ => ret tt
      end) then
  ret dataBuffer.

(** The handle [d] after one [references--]. *)
Definition decremented (d : WebGPUDataBuffer) : WebGPUDataBuffer :=
  mkDataBuffer (underlyingResource d) (references d - 1) (capacity d) (engineId d).

Definition releaseBuffer (buffer : BufferArg) : M bool :=
  match buffer with
  | RawBuffer g =>
      do modify (fun s => with_deferred (_deferredReleaseBuffers s ++ [g]) s) then
      ret true
  | DataBufferArg r =>
      let* d := lookupDataBuffer r in
      let d' := decremented d in
      do modify (fun s => with_dataBuffers (<[r := d']> (dataBuffers s)) s) then
      if references d' =? 0 then
        do modify (fun s =>
                     with_deferred (_deferredReleaseBuffers s ++ [underlyingResource d']) s) then
        ret true
      else ret false
  end.

(** The [for] loop of [destroyDeferredBuffers] from index [i] on, [rest]
    being the queue from that index ([destroy] does not touch the queue). *)
Fixpoint destroyLoop (rest : list GPUBuffer) : M unit :=
  match rest with
  | [] => ret tt
  | g :: rest' => do Device.destroy g then destroyLoop rest'
  end.

Definition destroyDeferredBuffers : M unit :=
  let* s := get in
  do destroyLoop (_deferredReleaseBuffers s) then
  modify (with_deferred []).

(** *** Read-back *)

Definition floatFormat (type : TextureType) : Z :=
  match type with
  | TEXTURETYPE_FLOAT => 2
  | TEXTURETYPE_HALF_FLOAT => 1
  | _ => 0
  end.

(** The four bytes of a 32-bit element and the 16-bit element at index
    [i] of [new Uint16Array(arrayBuffer)], both little-endian as on the
    platforms the engine runs on. *)
Definition byteOfZ (z : Z) : byte :=
  default x00 (Byte.of_N (Z.to_N (z mod 256))).

Definition bytesOfWord (w : Z) : list byte :=
  [byteOfZ w; byteOfZ (w / 256); byteOfZ (w / 65536); byteOfZ (w / 16777216)].

Definition getUint16 (a : list byte) (i : nat) : option Z :=
  lo ← a !! (2 * i)%nat;
  hi ← a !! (2 * i + 1)%nat;
  Some (Z.of_N (Byte.to_N lo) + 256 * Z.of_N (Byte.to_N hi)).

(** [new Float32Array(n)]; the length goes through [ToIndex]. *)
Definition newFloat32Array (n : Z) : outcome (list byte) :=
  if n <? 0 then Throw RangeError
  else Ok (replicate (4 * Z.to_nat n) x00).

(** [new Float32Array(arrayBuffer)] and [new Uint16Array(arrayBuffer)]
    accept only a whole number of elements. *)
Definition wholeElements (elementSize : Z) (a : list byte) : outcome unit :=
  if byteLengthOf a mod elementSize =? 0 then Ok tt else Throw RangeError.

(** [destArray[i] = w] through a [Float32Array] view: ignored when [i] is
    not below the view's length. *)
Definition storeFloat32 (destArray : ArrayBufferView) (i : nat) (w : Z) : ArrayBufferView :=
  if Z.of_nat i <? Z.quot (byteLength destArray) 4 then
    let at_ := (Z.to_nat (byteOffset destArray) + 4 * i)%nat in
    mkView (take at_ (Js.buffer destArray) ++ bytesOfWord w
              ++ drop (at_ + 4) (Js.buffer destArray))
           (byteOffset destArray) (byteLength destArray)
  else destArray.

(** [while (dataLength--) destArray[dataLength] = FromHalfFloat(srcData[dataLength])].
    An [undefined] source element is treated by [FromHalfFloat]'s bit
    masks as 0. *)
Fixpoint halfFloatLoop (dataLength : nat) (srcData : list byte)
         (destArray : ArrayBufferView) : ArrayBufferView :=
  match dataLength with
  | O => destArray
  | S k =>
      halfFloatLoop k srcData
        (storeFloat32 destArray k (FromHalfFloat (default 0 (getUint16 srcData k))))
  end.

Definition _getHalfFloatAsFloatRGBAArrayBuffer (dataLength : Z) (arrayBuffer : list byte)
           (destArray : option ArrayBufferView) : outcome ArrayBufferView :=
  obind (match destArray with
         | Some d => Ok d
         | None => obind (newFloat32Array dataLength)
                         (fun b => Ok (mkView b 0 (byteLengthOf b)))
         end) (fun destArray =>
  obind (wholeElements 2 arrayBuffer) (fun _ =>
  Ok (halfFloatLoop (Z.to_nat dataLength) arrayBuffer destArray))).

(** Modelled from the spec: [allocateAndCopyTypedBuffer] of
    abstractEngine.functions, whose code lies outside the manager's file.
    The spec has it "copy raw mapped bytes into a destination buffer of the
    semantic numeric type requested (caller-supplied or freshly allocated),
    no numeric reinterpretation"; the result is a view on that whole
    buffer. *)
Definition allocateAndCopyTypedBuffer (type : TextureType)
           (sizeOrDstBuffer : Z + list byte) (copyBuffer : list byte)
  : outcome ArrayBufferView :=
  obind (match sizeOrDstBuffer with
         | inl n => newUint8Array n
         | inr dst => Ok dst
         end) (fun target =>
  obind (setBytes target copyBuffer) (fun b =>
  Ok (mkView b 0 (byteLengthOf b)))).

(** A typed array over a whole buffer, filled by [set]. *)
Definition wholeBufferSet (elementSize : Z) (target copyArrayBuffer : list byte)
  : outcome ArrayBufferView :=
  obind (wholeElements elementSize target) (fun _ =>
  obind (wholeElements elementSize copyArrayBuffer) (fun _ =>
  obind (setBytes target copyArrayBuffer) (fun b =>
  Ok (mkView b 0 (byteLengthOf b))))).

(** The first half of the completion handler: from the mapped range to
    [data].  [size] is a multiple of 4 once [getMappedRange] has
    returned, so [size / 2] and [size / 4] are whole numbers. *)
Definition convertMapped (type : TextureType) (size : Z) (copyArrayBuffer : list byte)
           (buffer : option ArrayBufferView) (noDataConversion : bool)
  : outcome ArrayBufferView :=
  let data := buffer in
  if noDataConversion then
    match data with
    | None => allocateAndCopyTypedBuffer type (inl size) copyArrayBuffer
    | Some data => allocateAndCopyTypedBuffer type (inr (Js.buffer data)) copyArrayBuffer
    end
  else
    match data with
    | None =>
        if floatFormat type =? 0 then
          obind (newUint8Array size) (fun b => wholeBufferSet 1 b copyArrayBuffer)
        else if floatFormat type =? 1 then
          _getHalfFloatAsFloatRGBAArrayBuffer (size / 2) copyArrayBuffer None
        else
          obind (newFloat32Array (Z.quot size 4)) (fun b => wholeBufferSet 4 b copyArrayBuffer)
    | Some data =>
        if floatFormat type =? 0 then
          wholeBufferSet 1 (Js.buffer data) copyArrayBuffer
        else if floatFormat type =? 1 then
          _getHalfFloatAsFloatRGBAArrayBuffer (size / 2) copyArrayBuffer buffer
        else
          wholeBufferSet 4 (Js.buffer data) copyArrayBuffer
    end.

(** [for (x = 0; x < bytesPerRow; ++x) data2[offset++] = data2[offset2++]],
    with [x] counting the iterations left. *)
Fixpoint copyRow (x : nat) (data2 : list byte) (offset offset2 : Z) : list byte * Z :=
  match x with
  | O => (data2, offset)
  | S x' => copyRow x' (storeByte data2 offset (getByte data2 offset2))
                    (offset + 1) (offset2 + 1)
  end.

(** [for (y = 1; y < height; ++y)], with [n] counting the rows left. *)
Fixpoint compactLoop (n : nat) (y : Z) (data2 : list byte) (offset : Z)
         (bytesPerRow bytesPerRowAligned : Z) : list byte * Z :=
  match n with
  | O => (data2, offset)
  | S n' =>
      let offset2 := y * bytesPerRowAligned in
      let '(data2, offset) := copyRow (Z.to_nat bytesPerRow) data2 offset offset2 in
      compactLoop n' (y + 1) data2 offset bytesPerRow bytesPerRowAligned
  end.

(** [floatFormat === 1 && !noDataConversion]: half floats have been turned
    into floats, and the row widths are doubled. *)
Definition promoted (type : TextureType) (noDataConversion : bool) : bool :=
  (floatFormat type =? 1) && negb noDataConversion.

Definition rowBytes (promoted : bool) (bytes : Z) : Z :=
  if promoted then bytes * 2 else bytes.

(** The body of [if (bytesPerRow !== bytesPerRowAligned)]. *)
Definition compactRows (type : TextureType) (noDataConversion : bool)
           (height bytesPerRow bytesPerRowAligned : Z) (data : ArrayBufferView)
  : outcome ArrayBufferView :=
  let bytesPerRow := rowBytes (promoted type noDataConversion) bytesPerRow in
  let bytesPerRowAligned := rowBytes (promoted type noDataConversion) bytesPerRowAligned in
  let data2 := Js.buffer data in
  let '(data2, offset) :=
    compactLoop (Z.to_nat (height - 1)) 1 data2 bytesPerRow bytesPerRow bytesPerRowAligned in
  if negb (floatFormat type =? 0) && negb noDataConversion then
    let n := Z.quot offset 4 in
    if (n <? 0) || (byteLengthOf data2 <? 4 * n) then Throw RangeError
    else Ok (mkView data2 0 (4 * n))
  else
    if (offset <? 0) || (byteLengthOf data2 <? offset) then Throw RangeError
    else Ok (mkView data2 0 offset).

(** The arguments of [readDataFromBuffer], and the engine identity
    captured when the read is issued. *)
Record PendingRead : Type := mkPendingRead {
  rd_gpuBuffer : GPUBuffer;
  rd_size : Z;
  rd_width : Z;
  rd_height : Z;
  rd_bytesPerRow : Z;
  rd_bytesPerRowAligned : Z;
  rd_type : TextureType;
  rd_offset : Z;
  rd_buffer : option ArrayBufferView;
  rd_destroyBuffer : bool;
  rd_noDataConversion : bool;
  rd_engineId : Z
}.

Definition readDataFromBuffer (gpuBuffer : GPUBuffer) (size width height : Z)
           (bytesPerRow bytesPerRowAligned : Z) (type : TextureType) (offset : Z)
           (buffer : option ArrayBufferView) (destroyBuffer noDataConversion : bool)
  : M PendingRead :=
  let* s := get in
  let engineId := uniqueId (_engine s) in
  ret (mkPendingRead gpuBuffer size width height bytesPerRow bytesPerRowAligned
                     type offset buffer destroyBuffer noDataConversion engineId).

(** The callback run when [mapAsync] is fulfilled.  [gpuBuffer.unmap()]
    ends the mapping, which the device model does not track. *)
Definition onMapFulfilled (p : PendingRead) : M ArrayBufferView :=
  let* copyArrayBuffer := Device.getMappedRange (rd_gpuBuffer p) (rd_offset p) (rd_size p) in
  let* data := lift (convertMapped (rd_type p) (rd_size p) copyArrayBuffer
                                   (rd_buffer p) (rd_noDataConversion p)) in
  let* data :=
    if negb (rd_bytesPerRow p =? rd_bytesPerRowAligned p) then
      lift (compactRows (rd_type p) (rd_noDataConversion p) (rd_height p)
                        (rd_bytesPerRow p) (rd_bytesPerRowAligned p) data)
    else ret data in
  do (if rd_destroyBuffer p then
        do releaseBuffer (RawBuffer (rd_gpuBuffer p)) then ret tt
      else ret tt) then
  ret data.

(** How the promise returned by [readDataFromBuffer] ends.  A callback
    that throws leaves it unsettled: nothing then calls [resolve] or
    [reject]. *)
Inductive Settlement (Reason : Type) : Type :=
| Resolved (data : ArrayBufferView)
| Rejected (reason : Reason)
| Unsettled (e : Error).

Inductive MapResult (Reason : Type) : Type :=
| MapFulfilled
| MapRejected (reason : Reason).

(** The callback run when [mapAsync] is rejected. *)
Definition onMapRejected {Reason : Type} (p : PendingRead) (reason : Reason)
  : M (Settlement Reason) :=
  let* s := get in
  if isDisposed (_engine s) || negb (uniqueId (_engine s) =? rd_engineId p) then
    ret (Resolved Reason (mkView [] 0 0))
  else ret (Rejected Reason reason).

Definition settle {Reason : Type} (p : PendingRead) (r : MapResult Reason)
  : M (Settlement Reason) :=
  match r with
  | MapFulfilled _ =>
      fun s =>
        match onMapFulfilled p s with
        | (Ok data, s') => (Ok (Resolved Reason data), s')
        | (Throw e, s') => (Ok (Unsettled Reason e), s')
        end
  | MapRejected _ reason => onMapRejected p reason
  end.

(** *** Sequences of manager operations *)

(** A call of one of the manager's public methods; a read is represented
    by the settling of its promise, issuing it changes nothing. *)
Inductive Op : Type :=
| OpCreateRawBuffer (viewOrSize : ViewOrSize) (flags : Z) (mappedAtCreation : bool)
| OpCreateBuffer (viewOrSize : ViewOrSize) (flags : Z)
| OpSetRawData (buffer : GPUBuffer) (dstByteOffset : Z) (src : ArrayBufferView)
               (srcByteOffset byteLength : Z)
| OpSetSubData (dataBuffer : DataBufferRef) (dstByteOffset : Z) (src : ArrayBufferView)
               (srcByteOffset byteLength : Z)
| OpSettleRead (p : PendingRead) (r : MapResult unit)
| OpReleaseBuffer (buffer : BufferArg)
| OpDestroyDeferredBuffers.

Definition stateAfter {A : Type} (m : M A) (s : State) : State := snd (m s).

(** The state an operation leaves, whether it returned or threw. *)
Definition step (op : Op) (s : State) : State :=
  match op with
  | OpCreateRawBuffer v f m => stateAfter (createRawBuffer v f m) s
  | OpCreateBuffer v f => stateAfter (createBuffer v f) s
  | OpSetRawData g dst src so bl => stateAfter (setRawData g dst src so bl) s
  | OpSetSubData r dst src so bl => stateAfter (setSubData r dst src so bl) s
  | OpSettleRead p r => stateAfter (settle p r) s
  | OpReleaseBuffer b => stateAfter (releaseBuffer b) s
  | OpDestroyDeferredBuffers => stateAfter destroyDeferredBuffers s
  end.

Fixpoint run (ops : list Op) (s : State) : State :=
  match ops with
  | [] => s
  | op :: ops' => run ops' (step op s)
  end.

(** How many times the operations release handle [r]. *)
Fixpoint countReleases (r : DataBufferRef) (ops : list Op) : nat :=
  match ops with
  | [] => 0
  | OpReleaseBuffer (DataBufferArg r') :: ops' =>
      ((if Nat.eqb r r' then 1 else 0) + countReleases r ops')%nat
  | _ :: ops' => countReleases r ops'
  end.

End WebGPUBufferManager.

Arguments Resolved {Reason} data.
Arguments Rejected {Reason} reason.
Arguments Unsettled {Reason} e.
Arguments MapFulfilled {Reason}.
Arguments MapRejected {Reason} reason.

(** ** Sample data used to exercise the statements *)

Definition sampleEngine : Engine := mkEngine 7 false.

(** A manager holding one 8-byte buffer behind handle 0. *)
Definition sampleManager : State :=
  snd (createBuffer (OfSize 8) 0 (constructor sampleEngine)).

(** A manager whose buffer 0 holds two rows of five meaningful bytes, each
    padded to eight. *)
Definition sampleRows : list byte :=
  [x01; x02; x03; x04; x05; xaa; xaa; xaa; x11; x12; x13; x14; x15; xbb; xbb; xbb].

Definition sampleReadManager : State :=
  snd (createBuffer (OfView (mkView sampleRows 0 16)) 0 (constructor sampleEngine)).


(** A caller's destination: a two-float view in the second half of a
    16-byte buffer; and a mapped range of two half floats (both 0x3c00). *)
Definition sampleDestination : ArrayBufferView :=
  mkView [x01; x02; x03; x04; x05; x06; x07; x08;
          x09; x0a; x0b; x0c; x0d; x0e; x0f; x10] 8 8.

Definition sampleHalves : list byte := [x00; x3c; x00; x3c].

(** The temporary copy as the specification words it: the source bytes at
    offset [startPre] of a zero-filled buffer of [byteLength] bytes.  Kept
    apart from [effectiveSource], which follows the code. *)
Definition specScratch (src : ArrayBufferView) (srcByteOffset originalByteLength : Z)
           (startPre byteLength : Z) : list byte :=
  replicate (Z.to_nat startPre) x00
    ++ take (Z.to_nat originalByteLength)
         (drop (Z.to_nat (byteOffset src + srcByteOffset)) (Js.buffer src))
    ++ replicate (Z.to_nat (byteLength - startPre - originalByteLength)) x00.

(** ** Usage flags in buffer labels *)

Section FlagsToString.

(** [WebGPUConstants.BufferUsage[v]], the name the enumeration gives to a
    usage value; the table belongs to webgpuConstants and is a
    parameter. *)
Variable BufferUsage : Z -> string.

(** [a << b] *)
Definition shiftLeft (a b : Z) : Z := ToInt32 (Z.shiftl (ToInt32 a) (b mod 32)).

(** A string is truthy when it is not empty. *)
Definition truthy (s : string) : bool :=
  match s with
  | EmptyString => false
  | String _ _ => true
  end.

(** [for (let i = 0; i <= 9; ++i)], with [count] iterations left. *)
Fixpoint flagsLoop (count : nat) (i : Z) (flags : Z) (result : string) : string :=
  match count with
  | O => result
  | S count' =>
      let result :=
        if negb (bitand flags (shiftLeft 1 i) =? 0) then
          let result := if truthy result then result +:+ "_" else result in
          result +:+ BufferUsage (shiftLeft 1 i)
        else result in
      flagsLoop count' (i + 1) flags result
  end.

Definition _FlagsToString (flags : Z) (suffix : string) : string :=
  let result := suffix in
  flagsLoop 10 0 flags result.

(** The names of the usage bits of [flags] among bits [i .. i + count - 1],
    each with its leading underscore. *)
Definition usageSuffix (flags : Z) (i : Z) (count : nat) : string :=
  foldr (fun k acc => if Z.testbit flags k then "_" +:+ BufferUsage (2 ^ k) +:+ acc else acc)
        "" (seqZ i (Z.of_nat count)).

End FlagsToString.

(** ** Diffusion profiles of the sub-surface configuration *)

Section SubSurfaceConfiguration.

(** Colour components are JavaScript numbers.  Their [===] and [Math.max]
    are parameters, and so is [getDiffusionProfileParameters], whose value
    comes out of floating-point [sqrt], [pow] and [log]. *)
Variable Num : Type.
Variable strictEquals : Num -> Num -> bool.
Variable mathMax : Num -> Num -> Num.

Record Color3 : Type := mkColor3 {
  col_r : Num;
  col_g : Num;
  col_b : Num
}.

Variable getDiffusionProfileParameters : Color3 -> Num.

(** The four arrays of the configuration, and what [Logger.Error] was
    given. *)
Record SubSurfaceConfiguration : Type := mkSubSurface {
  _ssDiffusionS : list Num;
  _ssFilterRadii : list Num;
  _ssDiffusionD : list Num;
  ssDiffusionProfileColors : list Color3;
  loggedErrors : list string
}.

(** The test of the duplicate search at index [i]; an element read past
    the end of the array is [undefined] and equals no number. *)
Definition sameProfile (S : list Num) (i : nat) (color : Color3) : bool :=
  match S !! (i * 3)%nat, S !! (i * 3 + 1)%nat, S !! (i * 3 + 2)%nat with
  | Some x, Some y, Some z =>
      strictEquals x (col_r color) && strictEquals y (col_g color)
      && strictEquals z (col_b color)
  | _, _, _ => false
  end.

(** [for (let i = 0; i < this._ssDiffusionS.length / 3; i++)], with [count]
    iterations left. *)
Fixpoint findProfile (count i : nat) (S : list Num) (color : Color3) : option nat :=
  match count with
  | O => None
  | Datatypes.S count' =>
      if sameProfile S i color then Some i
      else findProfile count' (i + 1)%nat S color
  end.

Definition addDiffusionProfile (color : Color3) (this : SubSurfaceConfiguration)
  : nat * SubSurfaceConfiguration :=
  if (5 <=? length (_ssDiffusionD this))%nat then
    (0%nat,
     mkSubSurface (_ssDiffusionS this) (_ssFilterRadii this) (_ssDiffusionD this)
                  (ssDiffusionProfileColors this)
                  (loggedErrors this
                     ++ ["You already reached the maximum number of diffusion profiles."]))
  else
    match findProfile ((length (_ssDiffusionS this) + 2) / 3)%nat 0 (_ssDiffusionS this) color with
    | Some i => (i, this)
    | None =>
        let this' :=
          mkSubSurface
            (_ssDiffusionS this ++ [col_r color; col_b color; col_g color])
            (_ssFilterRadii this ++ [getDiffusionProfileParameters color])
            (_ssDiffusionD this ++ [mathMax (mathMax (col_r color) (col_b color)) (col_g color)])
            (ssDiffusionProfileColors this ++ [color])
            (loggedErrors this) in
        ((length (_ssDiffusionD this') - 1)%nat, this')
    end.

Definition clearAllDiffusionProfiles (this : SubSurfaceConfiguration)
  : SubSurfaceConfiguration :=
  mkSubSurface [] [] [] [] (loggedErrors this).

(** The configuration as its field initialisers leave it, and as the
    constructor does, which adds the default white profile. *)
Definition noProfiles : SubSurfaceConfiguration := mkSubSurface [] [] [] [] [].

Definition newSubSurfaceConfiguration (one : Num) : SubSurfaceConfiguration :=
  snd (addDiffusionProfile (mkColor3 one one one) noProfiles).

Inductive ProfileOp : Type :=
| AddProfile (color : Color3)
| ClearProfiles.

Fixpoint runProfiles (ops : list ProfileOp) (this : SubSurfaceConfiguration)
  : SubSurfaceConfiguration :=
  match ops with
  | [] => this
  | AddProfile color :: ops' => runProfiles ops' (snd (addDiffusionProfile color this))
  | ClearProfiles :: ops' => runProfiles ops' (clearAllDiffusionProfiles this)
  end.

(** The numeric arrays are what the stored colours determine, and there
    are at most five profiles. *)
Definition profilesDerived (this : SubSurfaceConfiguration) : Prop :=
  _ssDiffusionS this
  = flat_map (fun c => [col_r c; col_b c; col_g c]) (ssDiffusionProfileColors this) /\
  _ssDiffusionD this
  = map (fun c => mathMax (mathMax (col_r c) (col_b c)) (col_g c))
        (ssDiffusionProfileColors this) /\
  _ssFilterRadii this = map getDiffusionProfileParameters (ssDiffusionProfileColors this) /\
  (length (ssDiffusionProfileColors this) <= 5)%nat.

End SubSurfaceConfiguration.

Arguments mkColor3 {Num} _ _ _.
Arguments col_r {Num} _.
Arguments col_g {Num} _.
Arguments col_b {Num} _.
Arguments mkSubSurface {Num} _ _ _ _ _.
Arguments _ssDiffusionS {Num} _.
Arguments _ssFilterRadii {Num} _.
Arguments _ssDiffusionD {Num} _.
Arguments ssDiffusionProfileColors {Num} _.
Arguments loggedErrors {Num} _.
Arguments sameProfile {Num} _ _ _ _.
Arguments findProfile {Num} _ _ _ _ _.
Arguments addDiffusionProfile {Num} _ _ _ _ _.
Arguments clearAllDiffusionProfiles {Num} _.
Arguments noProfiles {Num}.
Arguments newSubSurfaceConfiguration {Num} _ _ _ _.
Arguments AddProfile {Num} _.
Arguments ClearProfiles {Num}.
Arguments runProfiles {Num} _ _ _ _ _.
Arguments profilesDerived {Num} _ _ _.

(** ** Well-formed device states, repeated releases *)

(** Every buffer the device knows was handed out before [deviceNext], holds
    as many bytes as its size says, and has a size that is a multiple
    of 4. *)
Definition deviceConsistent (s : State) : Prop :=
  forall g b, deviceBuffers s !! g = Some b ->
              (g < deviceNext s)%nat /\
              size b = byteLengthOf (contents b) /\
              size b mod 4 = 0.

(** A computation that keeps a property of the state, whether it returns or
    throws. *)
Definition preserves {A : Type} (P : State -> Prop) (m : M A) : Prop :=
  forall s, P s -> P (snd (m s)).

(** [k] successive calls of [releaseBuffer] on the same handle. *)
Definition releaseTimes (k : nat) (r : DataBufferRef) (s : State) : State :=
  Nat.iter k (stateAfter (releaseBuffer (DataBufferArg r))) s.

(** The states that differ from [s] at most in device buffer [g], whose
    size and liveness are those it had. *)
Definition onlyContentsOf (g : GPUBuffer) (s s' : State) : Prop :=
  _engine s' = _engine s /\
  deviceNext s' = deviceNext s /\
  destroyCalls s' = destroyCalls s /\
  _deferredReleaseBuffers s' = _deferredReleaseBuffers s /\
  dataBuffers s' = dataBuffers s /\
  dataBufferCounter s' = dataBufferCounter s /\
  (forall g', g' <> g -> deviceBuffers s' !! g' = deviceBuffers s !! g') /\
  (forall b, deviceBuffers s !! g = Some b ->
             exists b', deviceBuffers s' !! g = Some b' /\
                        size b' = size b /\ destroyed b' = destroyed b /\
                        length (contents b') = length (contents b)).

(** * Properties *)

(** ** 32-bit arithmetic of the alignment idiom *)

Section Alignment.

Lemma ToInt32_small (x : Z) : - 2 ^ 31 <= x < 2 ^ 31 -> ToInt32 x = x.
Proof.
  intros Hx. unfold ToInt32.
  destruct (Z_lt_le_dec x 0) as [Hneg | Hpos].
  - replace (x mod 2 ^ 32) with (x + 2 ^ 32).
    + destruct (Z.leb_spec (2 ^ 31) (x + 2 ^ 32)); lia.
    + apply Z.mod_unique with (q := -1); lia.
  - rewrite Z.mod_small by lia.
    destruct (Z.leb_spec (2 ^ 31) x); lia.
Qed.

Lemma ToInt32_mod4 (x : Z) : ToInt32 x mod 4 = x mod 4.
Proof.
  unfold ToInt32.
  assert (Hm : (x mod 2 ^ 32) mod 4 = x mod 4).
  { change (2 ^ 32) with (4 * 2 ^ 30).
    rewrite Z.rem_mul_r by lia.
    rewrite Z.mul_comm, Z.mod_add by lia.
    apply Z.mod_mod. lia. }
  destruct (2 ^ 31 <=? x mod 2 ^ 32); [| exact Hm].
  rewrite <- Hm.
  replace (x mod 2 ^ 32 - 2 ^ 32) with (x mod 2 ^ 32 + (- 2 ^ 30) * 4) by lia.
  apply Z.mod_add. lia.
Qed.

Lemma bitnot_3 : bitnot 3 = -4.
Proof. reflexivity. Qed.

(** [x & 3] is [x mod 4], for every integer [x]. *)
Lemma bitand_3 (x : Z) : bitand x 3 = x mod 4.
Proof.
  unfold bitand. change (ToInt32 3) with (Z.ones 2).
  rewrite Z.land_ones by lia. apply ToInt32_mod4.
Qed.

(** [x & ~3] clears the two low bits as long as [x] is a 32-bit value. *)
Lemma bitand_not3 (x : Z) :
  - 2 ^ 31 <= x < 2 ^ 31 -> bitand x (bitnot 3) = 4 * (x / 4).
Proof.
  intros Hx. unfold bitand. rewrite bitnot_3.
  rewrite (ToInt32_small x) by exact Hx.
  change (ToInt32 (-4)) with (Z.lnot (Z.ones 2)).
  rewrite <- Z.ldiff_land, Z.ldiff_ones_r by lia.
  rewrite Z.shiftl_mul_pow2, Z.shiftr_div_pow2 by lia.
  change (2 ^ 2) with 4. lia.
Qed.

Lemma alignedLength_eq (n : Z) :
  0 <= n <= 2 ^ 31 - 4 -> alignedLength n = 4 * ((n + 3) / 4).
Proof. intros Hn. unfold alignedLength. apply bitand_not3. lia. Qed.

Lemma alignedLength_bounds (n : Z) :
  0 <= n <= 2 ^ 31 - 4 ->
  n <= alignedLength n < n + 4 /\ alignedLength n mod 4 = 0.
Proof.
  intros Hn. rewrite alignedLength_eq by exact Hn.
  pose proof (Z.div_mod (n + 3) 4 ltac:(lia)) as Hd.
  pose proof (Z.mod_pos_bound (n + 3) 4 ltac:(lia)) as Hb.
  split; [lia |].
  rewrite Z.mul_comm. apply Z.mod_mul. lia.
Qed.

End Alignment.

(** ** Running the monad *)

Ltac run_step :=
  unfold bind, ret, get, modify, throw, lift; cbn beta iota.

Lemma bind_ok {A B} (m : M A) (f : A -> M B) (s s' : State) (a : A) :
  m s = (Ok a, s') -> bind m f s = f a s'.
Proof. intros H. unfold bind. rewrite H. reflexivity. Qed.

Lemma bind_throw {A B} (m : M A) (f : A -> M B) (s s' : State) (e : Error) :
  m s = (Throw e, s') -> bind m f s = (Throw e, s').
Proof. intros H. unfold bind. rewrite H. reflexivity. Qed.

Lemma lookupDataBuffer_ok (r : DataBufferRef) (d : WebGPUDataBuffer) (s : State) :
  dataBuffers s !! r = Some d -> lookupDataBuffer r s = (Ok d, s).
Proof. intros H. unfold lookupDataBuffer. run_step. rewrite H. reflexivity. Qed.

(** ** The device write *)

Lemma writeBuffer_ok (g : GPUBuffer) (b : GPUBufferState) (bufferOffset : Z)
      (data : list byte) (dataOffset n : Z) (s : State) :
  deviceBuffers s !! g = Some b ->
  destroyed b = false ->
  0 <= bufferOffset -> 0 <= dataOffset -> 0 <= n ->
  dataOffset + n <= byteLengthOf data ->
  n mod 4 = 0 -> bufferOffset mod 4 = 0 ->
  bufferOffset + n <= size b ->
  Device.writeBuffer g bufferOffset data dataOffset n s
  = (Ok tt, Device.written s g b bufferOffset data dataOffset n).
Proof.
  intros Hg Hd Ho Hdo Hn Hsrc Hn4 Ho4 Hdst.
  unfold Device.writeBuffer.
  destruct (Z.ltb_spec bufferOffset 0); [lia |].
  destruct (Z.ltb_spec dataOffset 0); [lia |].
  destruct (Z.ltb_spec n 0); [lia |].
  destruct (Z.ltb_spec (byteLengthOf data) (dataOffset + n)); [lia |].
  rewrite Hn4. cbn [orb negb Z.eqb].
  run_step. rewrite Hg, Hd, Ho4. cbn [orb negb Z.eqb].
  destruct (Z.ltb_spec (size b) (bufferOffset + n)); [lia |].
  reflexivity.
Qed.

(** ** The source handed to the device by [setSubData] *)

Lemma byteLengthOf_nonneg (a : list byte) : 0 <= byteLengthOf a.
Proof. unfold byteLengthOf. lia. Qed.

Lemma widenedLength_eq (n sp : Z) :
  0 <= n + sp + 3 < 2 ^ 31 -> widenedLength n sp = 4 * ((n + sp + 3) / 4).
Proof. intros H. unfold widenedLength. apply bitand_not3. lia. Qed.

Lemma startPre_range (dst : Z) : 0 <= startPre dst < 4 /\ startPre dst = dst mod 4.
Proof.
  unfold startPre. rewrite bitand_3.
  split; [apply Z.mod_pos_bound; lia | reflexivity].
Qed.

Lemma widenedLength_bounds (n sp : Z) :
  0 <= n + sp + 3 < 2 ^ 31 ->
  n + sp <= widenedLength n sp < n + sp + 4 /\ widenedLength n sp mod 4 = 0.
Proof.
  intros H. rewrite widenedLength_eq by exact H.
  pose proof (Z.div_mod (n + sp + 3) 4 ltac:(lia)) as Hd.
  pose proof (Z.mod_pos_bound (n + sp + 3) 4 ltac:(lia)) as Hb.
  split; [lia |].
  rewrite Z.mul_comm. apply Z.mod_mul. lia.
Qed.

Lemma effectiveSource_direct (src : ArrayBufferView) (so n L : Z) :
  L <= byteLengthOf (Js.buffer src) - byteOffset src ->
  effectiveSource src so n L = Ok (src, so).
Proof.
  intros H. unfold effectiveSource.
  destruct (Z.ltb_spec (byteLengthOf (Js.buffer src) - byteOffset src) L); [lia | reflexivity].
Qed.

Lemma effectiveSource_scratch (src : ArrayBufferView) (so n L : Z) :
  byteLengthOf (Js.buffer src) - byteOffset src < L ->
  0 <= byteOffset src + so ->
  0 <= n <= L ->
  byteOffset src + so + n <= byteLengthOf (Js.buffer src) ->
  effectiveSource src so n L
  = Ok (mkView (take (Z.to_nat n) (drop (Z.to_nat (byteOffset src + so)) (Js.buffer src))
                  ++ replicate (Z.to_nat (L - n)) x00) 0 L, 0).
Proof.
  intros Hsmall Hstart Hn Hend. unfold effectiveSource.
  destruct (Z.ltb_spec (byteLengthOf (Js.buffer src) - byteOffset src) L); [| lia].
  unfold newUint8Array. destruct (Z.ltb_spec L 0); [lia |]. cbn [obind].
  unfold uint8Window.
  destruct (Z.ltb_spec (byteOffset src + so) 0); [lia |].
  destruct (Z.ltb_spec n 0); [lia |].
  destruct (Z.ltb_spec (byteLengthOf (Js.buffer src)) (byteOffset src + so + n)); [lia |].
  cbn [orb obind]. unfold setBytes, byteLengthOf in *.
  rewrite length_replicate, length_take, length_drop.
  destruct (Z.ltb_spec (Z.of_nat (Z.to_nat L))
              (Z.of_nat (Z.to_nat n `min` (length (Js.buffer src)
                                            - Z.to_nat (byteOffset src + so))))); [lia |].
  cbn [obind]. rewrite drop_replicate.
  do 5 f_equal. lia.
Qed.

(** ** [setSubData] *)

Lemma setSubData_run (r : DataBufferRef) (dst : Z) (src : ArrayBufferView) (so bl : Z)
      (s : State) (d : WebGPUDataBuffer) :
  dataBuffers s !! r = Some d ->
  setSubData r dst src so bl s
  = match effectiveSource src (so - startPre dst) (effectiveLength src so bl)
            (widenedLength (effectiveLength src so bl) (startPre dst)) with
    | Ok es => setRawData (underlyingResource d) (dst - startPre dst) (fst es) (snd es)
                          (widenedLength (effectiveLength src so bl) (startPre dst)) s
    | Throw e => (Throw e, s)
    end.
Proof.
  intros Hd. unfold setSubData.
  rewrite (bind_ok _ _ s s d) by (apply lookupDataBuffer_ok; exact Hd).
  cbv zeta. unfold bind at 1, lift.
  destruct (effectiveSource _ _ _ _); reflexivity.
Qed.

(** The write [setSubData] performs when the shifted source window lies in
    the backing buffer and the widened destination window in the device
    buffer. *)
Lemma setSubData_written (r : DataBufferRef) (dst : Z) (src : ArrayBufferView) (so bl : Z)
      (s : State) (d : WebGPUDataBuffer) (b : GPUBufferState) :
  let n := effectiveLength src so bl in
  let sp := startPre dst in
  let L := widenedLength n sp in
  let a := byteOffset src + so - sp in
  dataBuffers s !! r = Some d ->
  deviceBuffers s !! underlyingResource d = Some b ->
  destroyed b = false ->
  0 <= dst -> 0 <= n -> n + sp + 3 < 2 ^ 31 ->
  0 <= a -> a + n <= byteLengthOf (Js.buffer src) ->
  (L <= byteLengthOf (Js.buffer src) - byteOffset src -> a + L <= byteLengthOf (Js.buffer src)) ->
  dst - sp + L <= size b ->
  exists es,
    effectiveSource src (so - sp) n L = Ok es /\
    setSubData r dst src so bl s
    = (Ok tt, Device.written s (underlyingResource d) b (dst - sp)
                (Js.buffer (fst es)) (snd es + byteOffset (fst es)) L).
Proof.
  intros n sp L a Hd Hb Hlive Hdst Hn Hwrap Ha Hwin Hdir Hfit.
  destruct (startPre_range dst) as [Hsp Hspm]. fold sp in Hsp, Hspm.
  destruct (widenedLength_bounds n sp ltac:(lia)) as [HL HL4]. fold L in HL, HL4.
  assert (Hdst4 : (dst - sp) mod 4 = 0).
  { rewrite Hspm, Zminus_mod, Z.mod_mod, Z.sub_diag by lia. reflexivity. }
  assert (Hdst0 : 0 <= dst - sp).
  { rewrite Hspm. pose proof (Z.mod_le dst 4 Hdst ltac:(lia)). lia. }
  rewrite (setSubData_run r dst src so bl s d Hd). fold n sp L.
  destruct (Z_lt_le_dec (byteLengthOf (Js.buffer src) - byteOffset src) L) as [Hsmall | Hbig].
  - rewrite effectiveSource_scratch by (unfold a in *; first [lia | replace (byteOffset src + (so - sp)) with (byteOffset src + so - sp) by lia; lia]).
    eexists. split; [reflexivity |]. cbn [fst snd].
    unfold setRawData. cbn [Js.buffer byteOffset].
    apply writeBuffer_ok; try assumption; try lia.
    unfold byteLengthOf.
    rewrite length_app, length_replicate, length_take, length_drop.
    unfold byteLengthOf, a in *. lia.
  - rewrite effectiveSource_direct by exact Hbig.
    eexists. split; [reflexivity |]. cbn [fst snd].
    unfold setRawData.
    specialize (Hdir Hbig).
    apply writeBuffer_ok; try assumption; unfold a in *; lia.
Qed.

(** A window of what was written reads back as the same window of the
    data. *)
Lemma splice_window (c data : list byte) (off doff L k n : Z) :
  0 <= off -> 0 <= doff -> 0 <= k -> 0 <= n -> k + n <= L ->
  off + L <= byteLengthOf c -> doff + L <= byteLengthOf data ->
  take (Z.to_nat n) (drop (Z.to_nat (off + k)) (Device.splice c off data doff L))
  = take (Z.to_nat n) (drop (Z.to_nat (doff + k)) data).
Proof.
  unfold byteLengthOf, Device.splice. intros Hoff Hdoff Hk Hn HkL Hc Hdata.
  rewrite drop_app_ge by (rewrite length_take; lia).
  rewrite length_take.
  replace (Z.to_nat (off + k) - Z.to_nat off `min` length c)%nat with (Z.to_nat k) by lia.
  rewrite drop_app_le by (rewrite length_take, length_drop; lia).
  rewrite take_app_le by (rewrite length_drop, length_take, length_drop; lia).
  replace (Z.to_nat L) with (Z.to_nat k + Z.to_nat (L - k))%nat by lia.
  rewrite <- take_drop_commute, take_take, drop_drop.
  f_equal; [lia | f_equal; lia].
Qed.

(** Where the round trip does hold: on the direct path, and on the
    temporary-copy path when the destination offset is 4-aligned. *)
Lemma setSubData_round_trip (r : DataBufferRef) (dst : Z) (src : ArrayBufferView) (so bl : Z)
      (s : State) (d : WebGPUDataBuffer) (b : GPUBufferState) :
  let n := effectiveLength src so bl in
  let sp := startPre dst in
  let L := widenedLength n sp in
  let a := byteOffset src + so - sp in
  dataBuffers s !! r = Some d ->
  deviceBuffers s !! underlyingResource d = Some b ->
  destroyed b = false ->
  size b = byteLengthOf (contents b) ->
  0 <= dst -> 0 <= n -> n + sp + 3 < 2 ^ 31 ->
  0 <= a -> a + n <= byteLengthOf (Js.buffer src) ->
  (L <= byteLengthOf (Js.buffer src) - byteOffset src -> a + L <= byteLengthOf (Js.buffer src)) ->
  dst - sp + L <= size b ->
  L <= byteLengthOf (Js.buffer src) - byteOffset src \/ sp = 0 ->
  Device.readWindow (snd (setSubData r dst src so bl s)) (underlyingResource d) dst n
  = Some (take (Z.to_nat n) (drop (Z.to_nat (byteOffset src + so)) (Js.buffer src))).
Proof.
  intros n sp L a Hd Hb Hlive Hsize Hdst Hn Hwrap Ha Hwin Hdir Hfit Hpath.
  destruct (setSubData_written r dst src so bl s d b Hd Hb Hlive Hdst Hn Hwrap Ha Hwin Hdir Hfit)
    as (es & Hes & Hrun).
  fold n sp L in Hes, Hrun. rewrite Hrun. cbn [snd].
  destruct (startPre_range dst) as [Hsp Hspm]. fold sp in Hsp, Hspm.
  destruct (widenedLength_bounds n sp ltac:(lia)) as [HL HL4]. fold L in HL, HL4.
  assert (Hdst0 : 0 <= dst - sp).
  { rewrite Hspm. pose proof (Z.mod_le dst 4 Hdst ltac:(lia)). lia. }
  unfold Device.readWindow, Device.written. cbn [deviceBuffers with_deviceBuffers].
  rewrite lookup_insert_eq. cbn [mbind option_bind size contents].
  destruct (Z.ltb_spec dst 0); [lia |].
  destruct (Z.ltb_spec n 0); [lia |].
  destruct (Z.ltb_spec (size b) (dst + n)); [lia |].
  cbn [orb]. f_equal.
  replace dst with ((dst - sp) + sp) at 1 by lia.
  destruct (Z_lt_le_dec (byteLengthOf (Js.buffer src) - byteOffset src) L) as [Hsmall | Hbig].
  - assert (Hsp0 : sp = 0) by (destruct Hpath; lia).
    rewrite effectiveSource_scratch in Hes
      by (unfold a in *; first [lia | replace (byteOffset src + (so - sp)) with (byteOffset src + so - sp) by lia; lia]).
    injection Hes as <-. cbn [fst snd Js.buffer byteOffset].
    rewrite splice_window; try lia.
    + rewrite Hsp0. replace (so - 0) with so by lia.
      change (Z.to_nat (0 + 0 + 0)) with 0%nat. rewrite drop_0.
      rewrite take_app_le by (rewrite length_take, length_drop; unfold byteLengthOf, a in *; lia).
      rewrite take_take. f_equal. lia.
    + unfold byteLengthOf.
      rewrite length_app, length_replicate, length_take, length_drop.
      unfold byteLengthOf, a in *. lia.
  - rewrite effectiveSource_direct in Hes by exact Hbig.
    injection Hes as <-. cbn [fst snd].
    specialize (Hdir Hbig).
    rewrite splice_window; try (unfold a in *; lia).
    do 2 f_equal. lia.
Qed.

Ltac by_compute :=
  vm_compute; first [reflexivity | discriminate | (intro; discriminate) | lia].

(** C1.  The round trip fails on the temporary-copy path when the
    destination offset is not 4-aligned: writing the two bytes [20; 30] of
    a 3-byte source at destination offset 1 succeeds, but the window reads
    back as [20; 0], the last byte having been cut off the copy. *)
Theorem setSubData_round_trip_broken_on_unaligned_scratch :
  let src := mkView [x0a; x14; x1e] 0 3 in
  let after := setSubData 0%nat 1 src 1 2 sampleManager in
  fst after = Ok tt /\
  uint8Window (Js.buffer src) (byteOffset src + 1) 2 = Ok [x14; x1e] /\
  Device.readWindow (snd after) 0%nat 1 2 = Some [x14; x00].
Proof. cbv zeta. repeat split; vm_compute; reflexivity. Qed.

(** C2, as stated, fails: for a 2-byte view at byte offset 1 of the buffer
    [10; 20; 30], written at destination offset 1, the temporary copy is
    [10; 20; 0; 0] -- its first byte is the byte in front of the view and
    the last source byte is missing -- and not [0; 20; 30; 0]. *)
Lemma scratch_copy_is_not_spec_scratch :
  let src := mkView [x0a; x14; x1e] 1 2 in
  effectiveSource src (0 - startPre 1) (effectiveLength src 0 0)
                  (widenedLength (effectiveLength src 0 0) (startPre 1))
  = Ok (mkView [x0a; x14; x00; x00] 0 4, 0) /\
  specScratch src 0 (effectiveLength src 0 0) (startPre 1)
              (widenedLength (effectiveLength src 0 0) (startPre 1))
  = [x00; x14; x1e; x00] /\
  [x0a; x14; x00; x00] <> [x00; x14; x1e; x00].
Proof. cbv zeta. repeat split; try (vm_compute; reflexivity). discriminate. Qed.

(** C2 (amended).  When the backing storage after the view's start is
    shorter than the widened length and the shifted source window lies in
    the backing buffer, the temporary copy has exactly [byteLength] bytes;
    its first [originalByteLength] bytes are the backing bytes from the
    shifted offset [byteOffset + srcByteOffset - startPre] on, so that source
    byte [j] sits at offset [startPre + j] for [j < originalByteLength -
    startPre] and the leading [startPre] bytes are the bytes in front of the
    source; from offset [originalByteLength + startPre] on it is zero. *)
Theorem scratch_copy_layout (src : ArrayBufferView) (dst so bl : Z) :
  let n := effectiveLength src so bl in
  let sp := startPre dst in
  let L := widenedLength n sp in
  let a := byteOffset src + so - sp in
  byteLengthOf (Js.buffer src) - byteOffset src < L ->
  0 <= n -> n + sp + 3 < 2 ^ 31 ->
  0 <= a -> a + n <= byteLengthOf (Js.buffer src) ->
  exists tmp,
    effectiveSource src (so - sp) n L = Ok (mkView tmp 0 L, 0) /\
    byteLengthOf tmp = L /\
    (forall i, 0 <= i < n -> getByte tmp i = getByte (Js.buffer src) (a + i)) /\
    (forall j, 0 <= j < n - sp ->
               getByte tmp (sp + j) = getByte (Js.buffer src) (byteOffset src + so + j)) /\
    (forall i, n + sp <= i < L -> getByte tmp i = Some x00).
Proof.
  intros n sp L a Hsmall Hn Hwrap Ha Hwin.
  destruct (startPre_range dst) as [Hsp _]. fold sp in Hsp.
  destruct (widenedLength_bounds n sp ltac:(lia)) as [HL _]. fold L in HL.
  eexists. split.
  { apply effectiveSource_scratch; unfold a in *;
      first [lia | replace (byteOffset src + (so - sp)) with (byteOffset src + so - sp) by lia; lia]. }
  replace (byteOffset src + (so - sp)) with a by (unfold a; lia).
  assert (Hlen : length (take (Z.to_nat n) (drop (Z.to_nat a) (Js.buffer src))) = Z.to_nat n).
  { rewrite length_take, length_drop. unfold byteLengthOf in *. lia. }
  assert (Hcopy : forall i, 0 <= i < n ->
            getByte (take (Z.to_nat n) (drop (Z.to_nat a) (Js.buffer src))
                       ++ replicate (Z.to_nat (L - n)) x00) i
            = getByte (Js.buffer src) (a + i)).
  { intros i Hi. unfold getByte.
    destruct (Z.ltb_spec i 0); [lia |]. destruct (Z.ltb_spec (a + i) 0); [lia |].
    rewrite lookup_app_l by lia.
    rewrite lookup_take_lt by lia. rewrite lookup_drop. f_equal. lia. }
  split; [| split; [exact Hcopy | split]].
  - unfold byteLengthOf. rewrite length_app, length_replicate, Hlen. lia.
  - intros j Hj. rewrite Hcopy by lia. f_equal. unfold a. lia.
  - intros i Hi. unfold getByte. destruct (Z.ltb_spec i 0); [lia |].
    rewrite lookup_app_r by lia. rewrite Hlen.
    apply lookup_replicate_2. lia.
Qed.

Lemma scratch_copy_layout_witness :
  exists tmp,
    effectiveSource (mkView [x0a; x14; x1e] 1 2) (0 - startPre 1) 2 4
    = Ok (mkView tmp 0 4, 0) /\
    byteLengthOf tmp = 4 /\
    (forall i, 0 <= i < 2 -> getByte tmp i = getByte [x0a; x14; x1e] (0 + i)) /\
    (forall j, 0 <= j < 2 - 1 -> getByte tmp (1 + j) = getByte [x0a; x14; x1e] (1 + 0 + j)) /\
    (forall i, 2 + 1 <= i < 4 -> getByte tmp i = Some x00).
Proof.
  apply (scratch_copy_layout (mkView [x0a; x14; x1e] 1 2) 1 0 0); by_compute.
Defined.




(** ** Creation *)

Lemma createRawBuffer_ok (viewOrSize : ViewOrSize) (flags : Z) (mapped : bool) (s : State) :
  0 <= requestedLength viewOrSize <= 2 ^ 31 - 4 ->
  createRawBuffer viewOrSize flags mapped s
  = (Ok (deviceNext s),
     with_deviceNext (S (deviceNext s))
       (with_deviceBuffers
          (<[deviceNext s :=
               mkGPUBufferState (alignedLength (requestedLength viewOrSize))
                 (replicate (Z.to_nat (alignedLength (requestedLength viewOrSize))) x00)
                 false]> (deviceBuffers s)) s)).
Proof.
  intros HN. destruct (alignedLength_bounds _ HN) as [Hb H4].
  unfold createRawBuffer, Device.createBuffer. cbn [desc_size desc_mappedAtCreation].
  destruct (Z.ltb_spec (alignedLength (requestedLength viewOrSize)) 0); [lia |].
  rewrite H4. cbn [Z.eqb negb]. rewrite andb_false_r.
  reflexivity.
Qed.

(** C9, as stated, fails for sizes from 2^31 - 3 on: [(n + 3) & ~3] is a
    32-bit operation, so a requested size of 2^31 bytes yields the
    aligned length -2^31, which is below the request, and the device
    refuses it. *)
Lemma alignedLength_wraps_at_2GiB :
  alignedLength 2147483648 = -2147483648 /\
  ~ (2147483648 <= alignedLength 2147483648) /\
  fst (createRawBuffer (OfSize 2147483648) 0 false (constructor sampleEngine)) = Throw TypeError.
Proof.
  assert (H : alignedLength 2147483648 = -2147483648) by (vm_compute; reflexivity).
  split; [exact H |]. split; [rewrite H; lia | vm_compute; reflexivity].
Qed.

(** C9 (amended).  For a requested size, or an initial view, of [N] bytes
    with [0 <= N <= 2^31 - 4], the raw buffer is allocated with size
    [(N + 3) & ~3], which is the least multiple of 4 that is at least [N],
    and the handle returned by [createBuffer] has [capacity = N],
    [references = 1] and the engine's [uniqueId] as [engineId]. *)
Theorem createBuffer_capacity_and_aligned_size
        (viewOrSize : ViewOrSize) (flags : Z) (s : State) :
  let N := requestedLength viewOrSize in
  0 <= N <= 2 ^ 31 - 4 ->
  (forall v, viewOrSize = OfView v ->
             0 <= byteOffset v /\ byteOffset v + byteLength v <= byteLengthOf (Js.buffer v)) ->
  exists s' d b,
    createBuffer viewOrSize flags s = (Ok (dataBufferCounter s), s') /\
    dataBuffers s' !! dataBufferCounter s = Some d /\
    capacity d = N /\ references d = 1 /\ engineId d = uniqueId (_engine s) /\
    deviceBuffers s' !! underlyingResource d = Some b /\
    size b = alignedLength N /\
    alignedLength N = 4 * ((N + 3) / 4) /\
    N <= size b < N + 4 /\ size b mod 4 = 0.
Proof.
  intros N HN Hview.
  destruct (alignedLength_bounds N HN) as [Hbounds H4].
  pose proof (alignedLength_eq N HN) as Heq.
  unfold createBuffer. run_step.
  rewrite createRawBuffer_ok by exact HN. fold N.
  cbn [_engine with_deviceNext with_deviceBuffers with_dataBufferCounter
       dataBuffers deviceBuffers deviceNext].
  set (raw := deviceNext s).
  set (b := mkGPUBufferState (alignedLength N) (replicate (Z.to_nat (alignedLength N)) x00) false).
  set (d := mkDataBuffer raw 1 N (uniqueId (_engine s))).
  match goal with
  | |- context [with_dataBuffers ?h ?st] => set (s3 := with_dataBuffers h st)
  end.
  assert (Hd3 : dataBuffers s3 !! dataBufferCounter s = Some d)
    by (subst s3; cbn; apply lookup_insert_eq).
  assert (Hb3 : deviceBuffers s3 !! underlyingResource d = Some b)
    by (subst s3 d; cbn; apply lookup_insert_eq).
  destruct viewOrSize as [v | n].
  - destruct (Hview v eq_refl) as [Hoff Hend]. cbn [requestedLength] in N.
    assert (Hsp : startPre 0 = 0) by reflexivity.
    assert (Hn : effectiveLength v 0 0 = N) by (unfold effectiveLength; cbn; subst N; lia).
    assert (HL : widenedLength N 0 = alignedLength N)
      by (unfold widenedLength, alignedLength; f_equal; lia).
    destruct (setSubData_written (dataBufferCounter s) 0 v 0 0 s3 d b) as (es & _ & Hrun);
      try assumption; try reflexivity;
      rewrite ?Hsp, ?Hn, ?HL; try (subst b; cbn [size]; lia); try lia.
    rewrite Hrun.
    eexists _, d, _. split; [reflexivity |].
    split; [exact Hd3 |].
    do 3 (split; [reflexivity |]).
    split; [unfold Device.written; cbn; apply lookup_insert_eq |].
    cbn [size]. repeat split; try assumption; lia.
  - eexists _, d, b. split; [reflexivity |].
    split; [exact Hd3 |].
    do 3 (split; [reflexivity |]).
    split; [exact Hb3 |].
    subst b. cbn [size]. repeat split; try assumption; lia.
Qed.

Lemma createBuffer_capacity_and_aligned_size_witness :
  exists s' d b,
    createBuffer (OfView (mkView [x0a; x14; x1e] 0 3)) 0 (constructor sampleEngine)
    = (Ok 0%nat, s') /\
    dataBuffers s' !! 0%nat = Some d /\
    capacity d = 3 /\ references d = 1 /\ engineId d = 7 /\
    deviceBuffers s' !! underlyingResource d = Some b /\
    size b = alignedLength 3 /\
    alignedLength 3 = 4 * ((3 + 3) / 4) /\
    3 <= size b < 3 + 4 /\ size b mod 4 = 0.
Proof.
  apply (createBuffer_capacity_and_aligned_size
           (OfView (mkView [x0a; x14; x1e] 0 3)) 0 (constructor sampleEngine)).
  - split; by_compute.
  - intros v Hv. injection Hv as <-. split; by_compute.
Defined.

(** ** Release and the deferred queue *)

Lemma releaseBuffer_handle (r : DataBufferRef) (d : WebGPUDataBuffer) (s : State) :
  dataBuffers s !! r = Some d ->
  releaseBuffer (DataBufferArg r) s
  = let s1 := with_dataBuffers (<[r := decremented d]> (dataBuffers s)) s in
    if references d - 1 =? 0
    then (Ok true, with_deferred (_deferredReleaseBuffers s ++ [underlyingResource d]) s1)
    else (Ok false, s1).
Proof.
  intros Hd. unfold releaseBuffer.
  rewrite (bind_ok _ _ s s d) by (apply lookupDataBuffer_ok; exact Hd).
  run_step.
  change (references (decremented d)) with (references d - 1).
  change (underlyingResource (decremented d)) with (underlyingResource d).
  destruct (references d - 1 =? 0); reflexivity.
Qed.

(** C5.  Given a raw buffer, [releaseBuffer] appends it to the deferred
    queue and returns true.  Given a handle it decrements [references] and
    returns whether the new count is 0, appending the underlying buffer to
    the queue exactly in that case.  So a handle with [references = 1] is
    enqueued by its single release, and a handle with [references = 2]
    gives false on the first release and true, with the enqueue, on the
    second. *)
Theorem releaseBuffer_raw_and_counted
        (g : GPUBuffer) (r : DataBufferRef) (d : WebGPUDataBuffer) (s : State) :
  dataBuffers s !! r = Some d ->
  let q := _deferredReleaseBuffers s in
  let s1 := stateAfter (releaseBuffer (DataBufferArg r)) s in
  releaseBuffer (RawBuffer g) s = (Ok true, with_deferred (q ++ [g]) s) /\
  fst (releaseBuffer (DataBufferArg r) s) = Ok (references d - 1 =? 0) /\
  dataBuffers s1 !! r = Some (decremented d) /\
  _deferredReleaseBuffers s1
  = (if references d - 1 =? 0 then q ++ [underlyingResource d] else q) /\
  (references d = 1 ->
   fst (releaseBuffer (DataBufferArg r) s) = Ok true /\
   _deferredReleaseBuffers s1 = q ++ [underlyingResource d]) /\
  (references d = 2 ->
   fst (releaseBuffer (DataBufferArg r) s) = Ok false /\
   _deferredReleaseBuffers s1 = q /\
   fst (releaseBuffer (DataBufferArg r) s1) = Ok true /\
   _deferredReleaseBuffers (stateAfter (releaseBuffer (DataBufferArg r)) s1)
   = q ++ [underlyingResource d]).
Proof.
  intros Hd q s1.
  pose proof (releaseBuffer_handle r d s Hd) as Hrel. cbv zeta in Hrel.
  assert (Hs1 : dataBuffers s1 !! r = Some (decremented d)).
  { subst s1. unfold stateAfter. rewrite Hrel.
    destruct (references d - 1 =? 0); cbn; apply lookup_insert_eq. }
  assert (Hq1 : _deferredReleaseBuffers s1
                = (if references d - 1 =? 0 then q ++ [underlyingResource d] else q)).
  { subst s1. unfold stateAfter. rewrite Hrel.
    destruct (references d - 1 =? 0); reflexivity. }
  assert (Hret : fst (releaseBuffer (DataBufferArg r) s) = Ok (references d - 1 =? 0)).
  { rewrite Hrel. destruct (references d - 1 =? 0); reflexivity. }
  split; [reflexivity |].
  split; [exact Hret |].
  split; [exact Hs1 |].
  split; [exact Hq1 |].
  split.
  - intros H1. rewrite Hret, Hq1, H1. split; reflexivity.
  - intros H2. rewrite Hret, Hq1, H2. cbn [Z.sub Z.eqb Z.add Z.opp Z.pos_sub Pos.pred_double].
    split; [reflexivity |]. split; [reflexivity |].
    pose proof (releaseBuffer_handle r (decremented d) s1 Hs1) as Hrel2. cbv zeta in Hrel2.
    unfold stateAfter. rewrite Hrel2. cbn [decremented references underlyingResource].
    rewrite H2. cbn [Z.sub Z.eqb Z.add Z.opp Z.pos_sub Pos.pred_double fst snd].
    split; [reflexivity |]. cbn. rewrite Hq1, H2. reflexivity.
Qed.

Lemma releaseBuffer_raw_and_counted_witness :
  let s := sampleManager in
  let d := mkDataBuffer 0%nat 1 8 7 in
  let q := _deferredReleaseBuffers s in
  let s1 := stateAfter (releaseBuffer (DataBufferArg 0%nat)) s in
  releaseBuffer (RawBuffer 5%nat) s = (Ok true, with_deferred (q ++ [5%nat]) s) /\
  fst (releaseBuffer (DataBufferArg 0%nat) s) = Ok (references d - 1 =? 0) /\
  dataBuffers s1 !! 0%nat = Some (decremented d) /\
  _deferredReleaseBuffers s1
  = (if references d - 1 =? 0 then q ++ [underlyingResource d] else q) /\
  (references d = 1 ->
   fst (releaseBuffer (DataBufferArg 0%nat) s) = Ok true /\
   _deferredReleaseBuffers s1 = q ++ [underlyingResource d]) /\
  (references d = 2 ->
   fst (releaseBuffer (DataBufferArg 0%nat) s) = Ok false /\
   _deferredReleaseBuffers s1 = q /\
   fst (releaseBuffer (DataBufferArg 0%nat) s1) = Ok true /\
   _deferredReleaseBuffers (stateAfter (releaseBuffer (DataBufferArg 0%nat)) s1)
   = q ++ [underlyingResource d]).
Proof.
  apply (releaseBuffer_raw_and_counted 5%nat 0%nat (mkDataBuffer 0%nat 1 8 7) sampleManager).
  vm_compute. reflexivity.
Defined.

Lemma destroyLoop_spec (q : list GPUBuffer) (s : State) :
  exists s',
    destroyLoop q s = (Ok tt, s') /\
    destroyCalls s' = destroyCalls s ++ q /\
    _deferredReleaseBuffers s' = _deferredReleaseBuffers s /\
    dataBuffers s' = dataBuffers s /\
    dataBufferCounter s' = dataBufferCounter s /\
    (forall g b, deviceBuffers s !! g = Some b ->
                 exists b', deviceBuffers s' !! g = Some b' /\
                            (destroyed b = true \/ g ∈ q -> destroyed b' = true)).
Proof.
  revert s. induction q as [| g q IH]; intros s.
  - exists s. cbn. rewrite app_nil_r. repeat split; try reflexivity.
    intros g b Hb. exists b. split; [exact Hb |].
    intros [H | H]; [exact H | inversion H].
  - cbn [destroyLoop]. unfold bind at 1. unfold Device.destroy at 1, modify.
    match goal with
    | |- context [destroyLoop q ?st] => destruct (IH st) as (s' & Hrun & Hcalls & Hq & Hh & Hc & Hdev)
    end.
    exists s'. rewrite Hrun. split; [reflexivity |].
    cbn in Hcalls, Hq, Hh, Hc. rewrite <- app_assoc in Hcalls.
    repeat (split; [assumption |]).
    intros g0 b0 Hb0.
    assert (Hmid : exists b1,
               deviceBuffers
                 (with_destroyCalls (destroyCalls s ++ [g])
                    (with_deviceBuffers
                       match deviceBuffers s !! g with
                       | Some b => <[g:=mkGPUBufferState (size b) (contents b) true]>
                                     (deviceBuffers s)
                       | None => deviceBuffers s
                       end s)) !! g0 = Some b1 /\
               (destroyed b0 = true \/ g0 = g -> destroyed b1 = true)).
    { cbn. destruct (decide (g0 = g)) as [-> | Hne].
      - rewrite Hb0. rewrite lookup_insert_eq. eexists. split; [reflexivity |]. reflexivity.
      - exists b0. split.
        + destruct (deviceBuffers s !! g); [rewrite lookup_insert_ne by congruence |]; exact Hb0.
        + intros [H | H]; [exact H | contradiction]. }
    destruct Hmid as (b1 & Hb1 & Hd1).
    destruct (Hdev g0 b1 Hb1) as (b' & Hb' & Hd').
    exists b'. split; [exact Hb' |].
    intros [H | H].
    + apply Hd'. left. apply Hd1. left. exact H.
    + apply elem_of_cons in H as [-> | H].
      * apply Hd'. left. apply Hd1. right. reflexivity.
      * apply Hd'. right. exact H.
Qed.

(** C8.  [destroyDeferredBuffers] calls [destroy] on every buffer of the
    deferred queue, in order and without skipping any, and leaves the queue
    empty; run again straight away it destroys nothing and changes
    nothing. *)
Theorem destroyDeferredBuffers_drains_queue (s : State) :
  exists s',
    destroyDeferredBuffers s = (Ok tt, s') /\
    _deferredReleaseBuffers s' = [] /\
    destroyCalls s' = destroyCalls s ++ _deferredReleaseBuffers s /\
    (forall g b, g ∈ _deferredReleaseBuffers s -> deviceBuffers s !! g = Some b ->
                 exists b', deviceBuffers s' !! g = Some b' /\ destroyed b' = true) /\
    destroyDeferredBuffers s' = (Ok tt, s').
Proof.
  destruct (destroyLoop_spec (_deferredReleaseBuffers s) s)
    as (s1 & Hrun & Hcalls & Hq & _ & _ & Hdev).
  exists (with_deferred [] s1).
  unfold destroyDeferredBuffers. run_step. rewrite Hrun.
  split; [reflexivity |].
  split; [reflexivity |].
  split; [exact Hcalls |].
  split.
  - intros g b Hin Hb. destruct (Hdev g b Hb) as (b' & Hb' & Hd').
    exists b'. split; [exact Hb' | apply Hd'; right; exact Hin].
  - reflexivity.
Qed.

(** ** Rejected reads *)

(** C4.  When the map operation of a read is rejected, the promise
    resolves with an empty byte view if the engine is disposed or its
    [uniqueId] differs from the one captured when the read was issued, and
    is rejected with the same reason otherwise. *)
Theorem rejected_read_resolves_empty_when_engine_gone
        {Reason : Type} (FromHalfFloat : Z -> Z)
        (gpuBuffer : GPUBuffer) (size width height bytesPerRow bytesPerRowAligned : Z)
        (type : TextureType) (offset : Z) (buffer : option ArrayBufferView)
        (destroyBuffer noDataConversion : bool) (s0 : State) :
  exists p,
    readDataFromBuffer gpuBuffer size width height bytesPerRow bytesPerRowAligned
                       type offset buffer destroyBuffer noDataConversion s0 = (Ok p, s0) /\
    forall (s : State) (reason : Reason),
      (isDisposed (_engine s) = true \/ uniqueId (_engine s) <> uniqueId (_engine s0) ->
       settle FromHalfFloat p (MapRejected reason) s = (Ok (Resolved (mkView [] 0 0)), s)) /\
      (isDisposed (_engine s) = false -> uniqueId (_engine s) = uniqueId (_engine s0) ->
       settle FromHalfFloat p (MapRejected reason) s = (Ok (Rejected reason), s)).
Proof.
  eexists. split; [reflexivity |].
  intros s reason. cbn [settle]. unfold onMapRejected. run_step. cbn [rd_engineId].
  split.
  - intros [Hdisp | Hid].
    + rewrite Hdisp. reflexivity.
    + destruct (Z.eqb_spec (uniqueId (_engine s)) (uniqueId (_engine s0))) as [Heq | _];
        [contradiction |].
      rewrite orb_true_r. reflexivity.
  - intros Hlive Hid. rewrite Hlive, Hid, Z.eqb_refl. reflexivity.
Qed.

(** ** Operations that leave the handles alone *)

Create HintDb handles.

Lemma keeps_ret {A} (a : A) : keepsHandles (ret a).
Proof. intros s. split; reflexivity. Qed.

Lemma keeps_throw {A} (e : Error) : keepsHandles (@throw A e).
Proof. intros s. split; reflexivity. Qed.

Lemma keeps_lift {A} (x : outcome A) : keepsHandles (lift x).
Proof. intros s. split; reflexivity. Qed.

Lemma keeps_get : keepsHandles get.
Proof. intros s. split; reflexivity. Qed.

Lemma keeps_modify (f : State -> State) :
  (forall s, dataBuffers (f s) = dataBuffers s /\ dataBufferCounter (f s) = dataBufferCounter s) ->
  keepsHandles (modify f).
Proof. intros Hf s. apply Hf. Qed.

Lemma keeps_bind {A B} (m : M A) (f : A -> M B) :
  keepsHandles m -> (forall a, keepsHandles (f a)) -> keepsHandles (bind m f).
Proof.
  intros Hm Hf s. unfold bind. specialize (Hm s).
  destruct (m s) as [[a | e] s1]; cbn [snd] in *.
  - destruct (Hf a s1) as [H1 H2]. destruct Hm as [H3 H4]. split; congruence.
  - exact Hm.
Qed.

Lemma keeps_if {A} (c : bool) (m1 m2 : M A) :
  keepsHandles m1 -> keepsHandles m2 -> keepsHandles (if c then m1 else m2).
Proof. destruct c; auto. Qed.

#[local] Hint Resolve keeps_ret keeps_throw keeps_lift keeps_get keeps_bind keeps_if : handles.

Lemma keeps_createRawBuffer (v : ViewOrSize) (flags : Z) (m : bool) :
  keepsHandles (createRawBuffer v flags m).
Proof.
  unfold createRawBuffer, Device.createBuffer.
  repeat apply keeps_if; auto with handles.
Qed.

Lemma keeps_setRawData (g : GPUBuffer) (dst : Z) (src : ArrayBufferView) (so bl : Z) :
  keepsHandles (setRawData g dst src so bl).
Proof.
  unfold setRawData, Device.writeBuffer.
  repeat apply keeps_if; auto with handles.
  apply keeps_bind; [auto with handles | intros s0].
  destruct (deviceBuffers s0 !! g); [| auto with handles].
  apply keeps_if; [auto with handles |].
  apply keeps_modify. intros s. split; reflexivity.
Qed.

Lemma keeps_lookupDataBuffer (r : DataBufferRef) : keepsHandles (lookupDataBuffer r).
Proof.
  unfold lookupDataBuffer. apply keeps_bind; [auto with handles | intros s0].
  destruct (dataBuffers s0 !! r); auto with handles.
Qed.

Lemma keeps_setSubData (r : DataBufferRef) (dst : Z) (src : ArrayBufferView) (so bl : Z) :
  keepsHandles (setSubData r dst src so bl).
Proof.
  unfold setSubData.
  apply keeps_bind; [apply keeps_lookupDataBuffer | intros d].
  cbv zeta. apply keeps_bind; [auto with handles | intros es].
  apply keeps_setRawData.
Qed.

Lemma keeps_releaseRaw (g : GPUBuffer) : keepsHandles (releaseBuffer (RawBuffer g)).
Proof.
  cbn [releaseBuffer]. apply keeps_bind; [| auto with handles].
  apply keeps_modify. intros s. split; reflexivity.
Qed.

Lemma keeps_getMappedRange (g : GPUBuffer) (offset n : Z) :
  keepsHandles (Device.getMappedRange g offset n).
Proof.
  unfold Device.getMappedRange. apply keeps_bind; [auto with handles | intros s0].
  destruct (deviceBuffers s0 !! g); auto with handles.
Qed.

#[local] Hint Resolve keeps_createRawBuffer keeps_setRawData keeps_setSubData
  keeps_releaseRaw keeps_getMappedRange keeps_lookupDataBuffer : handles.

Lemma keeps_settle (FromHalfFloat : Z -> Z) (p : PendingRead) (r : MapResult unit) :
  keepsHandles (settle FromHalfFloat p r).
Proof.
  destruct r as [| reason]; cbn [settle].
  - assert (H : keepsHandles (onMapFulfilled FromHalfFloat p)).
    { unfold onMapFulfilled.
      apply keeps_bind; [apply keeps_getMappedRange | intros copyArrayBuffer].
      apply keeps_bind; [apply keeps_lift | intros data].
      apply keeps_bind; [apply keeps_if; auto with handles | intros data'].
      apply keeps_bind; [apply keeps_if; auto with handles | auto with handles]. }
    intros s. specialize (H s).
    destruct (onMapFulfilled FromHalfFloat p s) as [[a | e] s1]; exact H.
  - unfold onMapRejected. auto with handles.
Qed.

Lemma keeps_destroyDeferredBuffers : keepsHandles destroyDeferredBuffers.
Proof.
  intros s. unfold destroyDeferredBuffers. run_step.
  destruct (destroyLoop_spec (_deferredReleaseBuffers s) s)
    as (s1 & Hrun & _ & _ & Hh & Hc & _).
  rewrite Hrun. cbn. split; assumption.
Qed.

(** ** The reference count along a sequence of operations *)

Lemma createBuffer_handles (v : ViewOrSize) (flags : Z) (s : State) :
  dataBufferCounter (snd (createBuffer v flags s)) = S (dataBufferCounter s) /\
  (forall r, (r < dataBufferCounter s)%nat ->
             dataBuffers (snd (createBuffer v flags s)) !! r = dataBuffers s !! r) /\
  (forall r, fst (createBuffer v flags s) = Ok r ->
             r = dataBufferCounter s /\
             exists d, dataBuffers (snd (createBuffer v flags s)) !! r = Some d /\
                       references d = 1).
Proof.
  unfold createBuffer. unfold bind, get, modify. cbn beta iota.
  set (s1 := with_dataBufferCounter (S (dataBufferCounter s)) s).
  destruct (keeps_createRawBuffer v flags false s1) as [Hh1 Hc1].
  destruct (createRawBuffer v flags false s1) as [[raw | e] s2]; cbn [snd fst] in *.
  - set (d := mkDataBuffer raw 1 (requestedLength v) (uniqueId (_engine s2))).
    set (s3 := with_dataBuffers (<[dataBufferCounter s := d]> (dataBuffers s2)) s2).
    set (m := match v with
              | OfView v0 => setSubData (dataBufferCounter s) 0 v0 0 0
              | OfSize _ => ret tt
              end).
    assert (Hm : keepsHandles m) by (subst m; destruct v; auto with handles).
    destruct (Hm s3) as [Hh3 Hc3].
    destruct (m s3) as [[[] | e] s4]; unfold ret; cbn [snd fst] in *.
    + rewrite Hc3, Hh3. subst s3. cbn. rewrite Hc1, Hh1. subst s1. cbn.
      split; [reflexivity |]. split.
      * intros r Hr. apply lookup_insert_ne. lia.
      * intros r Hr. injection Hr as <-. split; [reflexivity |].
        exists d. split; [apply lookup_insert_eq | reflexivity].
    + rewrite Hc3, Hh3. subst s3. cbn. rewrite Hc1, Hh1. subst s1. cbn.
      split; [reflexivity |]. split.
      * intros r Hr. apply lookup_insert_ne. lia.
      * intros r Hr. discriminate Hr.
  - rewrite Hc1, Hh1. subst s1. cbn.
    split; [reflexivity |]. split; [reflexivity |].
    intros r Hr. discriminate Hr.
Qed.

Lemma keeps_step {A} (m : M A) (s : State) (r : DataBufferRef) (d : WebGPUDataBuffer) :
  keepsHandles m ->
  dataBuffers s !! r = Some d -> (r < dataBufferCounter s)%nat ->
  dataBuffers (stateAfter m s) !! r = Some d /\ (r < dataBufferCounter (stateAfter m s))%nat.
Proof.
  intros Hm Hd Hr. destruct (Hm s) as [Hh Hc]. unfold stateAfter.
  rewrite Hh, Hc. split; assumption.
Qed.

Lemma step_references (FromHalfFloat : Z -> Z) (op : Op) (s : State)
      (r : DataBufferRef) (d : WebGPUDataBuffer) :
  dataBuffers s !! r = Some d -> (r < dataBufferCounter s)%nat ->
  exists d',
    dataBuffers (step FromHalfFloat op s) !! r = Some d' /\
    references d' = references d - Z.of_nat (countReleases r [op]) /\
    (r < dataBufferCounter (step FromHalfFloat op s))%nat.
Proof.
  intros Hd Hr.
  assert (Hkeep : forall A (m : M A), keepsHandles m ->
            exists d', dataBuffers (stateAfter m s) !! r = Some d' /\
                       references d' = references d - 0 /\
                       (r < dataBufferCounter (stateAfter m s))%nat).
  { intros A m Hm. destruct (keeps_step m s r d Hm Hd Hr) as [H1 H2].
    exists d. repeat split; [assumption | lia | assumption]. }
  destruct op as [v f m | v f | g dst src so bl | r' dst src so bl | p mr | b |];
    cbn [step countReleases];
    try solve [apply Hkeep; auto using keeps_settle, keeps_destroyDeferredBuffers with handles].
  - (* createBuffer *)
    destruct (createBuffer_handles v f s) as (Hc & Hold & _).
    exists d. unfold stateAfter. rewrite Hold by exact Hr. rewrite Hc.
    repeat split; [assumption | lia | lia].
  - (* releaseBuffer *)
    destruct b as [g | r'].
    + apply Hkeep. auto with handles.
    + unfold stateAfter.
      destruct (dataBuffers s !! r') as [d0 |] eqn:Hd0.
      * rewrite (releaseBuffer_handle r' d0 s Hd0). cbv zeta.
        destruct (Nat.eqb_spec r r') as [<- | Hne].
        -- assert (d0 = d) by congruence. subst d0.
           exists (decremented d).
           destruct (references d - 1 =? 0); cbn;
             (split; [apply lookup_insert_eq | split; [lia | assumption]]).
        -- exists d.
           destruct (references d0 - 1 =? 0); cbn;
             (split; [rewrite lookup_insert_ne by congruence; assumption
                     | split; [lia | assumption]]).
      * unfold releaseBuffer.
        rewrite (bind_throw _ _ s s TypeError)
          by (unfold lookupDataBuffer; run_step; rewrite Hd0; reflexivity).
        exists d. cbn [snd].
        destruct (Nat.eqb_spec r r') as [<- | Hne]; [congruence |].
        repeat split; [assumption | lia | assumption].
Qed.

Lemma countReleases_cons (r : DataBufferRef) (op : Op) (ops : list Op) :
  countReleases r (op :: ops) = (countReleases r [op] + countReleases r ops)%nat.
Proof.
  destruct op as [| | | | | [g | r'] |]; cbn [countReleases]; lia.
Qed.

Lemma countReleases_take (r : DataBufferRef) (k : nat) (ops : list Op) :
  (countReleases r (take k ops) <= countReleases r ops)%nat.
Proof.
  revert k. induction ops as [| op ops IH]; intros [| k]; cbn [take];
    try (change (countReleases r []) with 0%nat; lia).
  rewrite (countReleases_cons r op (take k ops)), (countReleases_cons r op ops).
  specialize (IH k). lia.
Qed.

Lemma run_references (FromHalfFloat : Z -> Z) (ops : list Op) (s : State)
      (r : DataBufferRef) (d : WebGPUDataBuffer) :
  dataBuffers s !! r = Some d -> (r < dataBufferCounter s)%nat ->
  exists d',
    dataBuffers (run FromHalfFloat ops s) !! r = Some d' /\
    references d' = references d - Z.of_nat (countReleases r ops).
Proof.
  revert s d. induction ops as [| op ops IH]; intros s d Hd Hr.
  - exists d. split; [exact Hd | cbn; lia].
  - destruct (step_references FromHalfFloat op s r d Hd Hr) as (d1 & Hd1 & Href1 & Hr1).
    destruct (IH _ d1 Hd1 Hr1) as (d' & Hd' & Href').
    exists d'. cbn [run]. split; [exact Hd' |].
    rewrite (countReleases_cons r op ops). lia.
Qed.

(** C6, as stated, fails: releasing the handle of a freshly created buffer
    twice leaves [references = -1]. *)
Lemma references_negative_after_over_release :
  exists d,
    dataBuffers (run (fun _ => 0)
                     [OpReleaseBuffer (DataBufferArg 0%nat);
                      OpReleaseBuffer (DataBufferArg 0%nat)] sampleManager) !! 0%nat
    = Some d /\
    references d = -1 /\ references d < 0.
Proof. eexists. split; [vm_compute; reflexivity |]. cbn. lia. Qed.

(** C6 (amended).  Along any sequence of manager operations applied after
    [createBuffer] returned a handle, the handle's [references] is 1 minus
    the number of times it has been released so far; it is therefore never
    negative as long as the handle is released at most once, that is, never
    released again once its count is 0. *)
Theorem references_nonnegative_without_over_release
        (FromHalfFloat : Z -> Z) (v : ViewOrSize) (flags : Z) (s0 s : State)
        (r : DataBufferRef) (ops : list Op) :
  createBuffer v flags s0 = (Ok r, s) ->
  (countReleases r ops <= 1)%nat ->
  forall k,
    exists d,
      dataBuffers (run FromHalfFloat (take k ops) s) !! r = Some d /\
      references d = 1 - Z.of_nat (countReleases r (take k ops)) /\
      0 <= references d.
Proof.
  intros Hcreate Hcount k.
  destruct (createBuffer_handles v flags s0) as (Hc & _ & Hfresh).
  rewrite Hcreate in Hc, Hfresh. cbn [fst snd] in Hc, Hfresh.
  destruct (Hfresh r eq_refl) as (-> & d & Hd & Href).
  destruct (run_references FromHalfFloat (take k ops) s (dataBufferCounter s0) d Hd ltac:(lia))
    as (d' & Hd' & Href').
  exists d'. split; [exact Hd' |].
  pose proof (countReleases_take (dataBufferCounter s0) k ops).
  split; lia.
Qed.

Lemma references_nonnegative_without_over_release_witness :
  exists d,
    dataBuffers (run (fun _ => 0)
                     (take 2 [OpSetSubData 0%nat 0 (mkView [x0a; x14; x1e; x28] 0 4) 0 0;
                              OpReleaseBuffer (DataBufferArg 0%nat);
                              OpDestroyDeferredBuffers]) sampleManager) !! 0%nat = Some d /\
    references d
    = 1 - Z.of_nat (countReleases 0%nat
                      (take 2 [OpSetSubData 0%nat 0 (mkView [x0a; x14; x1e; x28] 0 4) 0 0;
                               OpReleaseBuffer (DataBufferArg 0%nat);
                               OpDestroyDeferredBuffers])) /\
    0 <= references d.
Proof.
  apply (references_nonnegative_without_over_release
           (fun _ => 0) (OfSize 8) 0 (constructor sampleEngine) sampleManager 0%nat).
  - vm_compute. reflexivity.
  - vm_compute. lia.
Defined.

(** ** Row compaction *)









(** ** Where the conversion step puts its output *)

Lemma length_bytesOfWord (w : Z) : length (bytesOfWord w) = 4%nat.
Proof. reflexivity. Qed.

Section HalfFloat.

Variable FromHalfFloat : Z -> Z.
Variable srcData : list byte.

Lemma storeFloat32_spec (d : ArrayBufferView) (i : nat) (w : Z) :
  viewInBuffer d ->
  let o := Z.to_nat (byteOffset d) in
  let d' := storeFloat32 d i w in
  byteOffset d' = byteOffset d /\ byteLength d' = byteLength d /\
  length (Js.buffer d') = length (Js.buffer d) /\
  (Z.of_nat i < Z.quot (byteLength d) 4 ->
   (forall r, (r < 4)%nat -> Js.buffer d' !! (o + 4 * i + r)%nat = bytesOfWord w !! r) /\
   (forall j, (j < o + 4 * i \/ o + 4 * i + 4 <= j)%nat -> Js.buffer d' !! j = Js.buffer d !! j)) /\
  (~ Z.of_nat i < Z.quot (byteLength d) 4 -> d' = d).
Proof.
  intros (Ho & Hl & Hfit) o d'. subst d'. unfold storeFloat32. fold o.
  destruct (Z.ltb_spec (Z.of_nat i) (Z.quot (byteLength d) 4)) as [Hin | Hout].
  - cbn [byteOffset byteLength Js.buffer].
    assert (Hq : 4 * Z.quot (byteLength d) 4 <= byteLength d).
    { rewrite Z.quot_div_nonneg by lia.
      pose proof (Z.mul_div_le (byteLength d) 4 ltac:(lia)). lia. }
    assert (Hend : (o + 4 * i + 4 <= length (Js.buffer d))%nat).
    { unfold byteLengthOf in Hfit. subst o. lia. }
    assert (Htake : length (take (o + 4 * i) (Js.buffer d)) = (o + 4 * i)%nat).
    { rewrite length_take. lia. }
    split; [reflexivity |]. split; [reflexivity |]. split.
    { rewrite !length_app, Htake, length_bytesOfWord, length_drop. lia. }
    split; [| intros H; contradiction].
    intros _. split.
    + intros r Hr.
      rewrite lookup_app_r by lia. rewrite Htake.
      replace (o + 4 * i + r - (o + 4 * i))%nat with r by lia.
      apply lookup_app_l. rewrite length_bytesOfWord. exact Hr.
    + intros j [Hj | Hj].
      * rewrite lookup_app_l by lia. apply lookup_take_lt. exact Hj.
      * rewrite lookup_app_r by lia. rewrite Htake.
        rewrite lookup_app_r by (rewrite length_bytesOfWord; lia).
        rewrite length_bytesOfWord, lookup_drop. f_equal. lia.
  - split; [reflexivity |]. split; [reflexivity |]. split; [reflexivity |].
    split; [intros H; lia | reflexivity].
Qed.

Lemma halfFloatLoop_spec (k : nat) (d : ArrayBufferView) :
  viewInBuffer d ->
  let o := Z.to_nat (byteOffset d) in
  let d' := halfFloatLoop FromHalfFloat k srcData d in
  byteOffset d' = byteOffset d /\ byteLength d' = byteLength d /\
  length (Js.buffer d') = length (Js.buffer d) /\
  (forall i r, (i < k)%nat -> Z.of_nat i < Z.quot (byteLength d) 4 -> (r < 4)%nat ->
               Js.buffer d' !! (o + 4 * i + r)%nat
               = bytesOfWord (FromHalfFloat (default 0 (getUint16 srcData i))) !! r) /\
  (forall j, (j < o)%nat \/
             (o + 4 * k <= j)%nat \/ Z.of_nat o + 4 * Z.quot (byteLength d) 4 <= Z.of_nat j ->
             Js.buffer d' !! j = Js.buffer d !! j).
Proof.
  revert d. induction k as [| k IH]; intros d Hwf o d'.
  - subst d'. cbn [halfFloatLoop].
    repeat split; try reflexivity. intros i r Hi. lia.
  - subst d'. cbn [halfFloatLoop].
    set (w := FromHalfFloat (default 0 (getUint16 srcData k))).
    destruct (storeFloat32_spec d k w Hwf) as (Ho1 & Hl1 & Hlen1 & Hin1 & Hout1).
    fold o in Hin1.
    set (d1 := storeFloat32 d k w) in *.
    assert (Hwf1 : viewInBuffer d1).
    { destruct Hwf as (H1 & H2 & H3). unfold viewInBuffer, byteLengthOf in *.
      rewrite Ho1, Hl1, Hlen1. auto. }
    destruct (IH d1 Hwf1) as (Ho' & Hl' & Hlen' & Helem & Hframe).
    rewrite Ho1 in Helem, Hframe. fold o in Helem, Hframe. rewrite Hl1 in Helem, Hframe.
    split; [congruence |]. split; [congruence |]. split; [congruence |].
    destruct (Z_lt_le_dec (Z.of_nat k) (Z.quot (byteLength d) 4)) as [Hk | Hk].
    + destruct (Hin1 Hk) as [Hword Hother]. split.
      * intros i r Hi Hlt Hr. destruct (Nat.eq_dec i k) as [-> | Hne].
        -- rewrite Hframe by lia. apply Hword. exact Hr.
        -- apply Helem; [lia | exact Hlt | exact Hr].
      * intros j Hj. rewrite Hframe by lia. apply Hother. lia.
    + rewrite (Hout1 ltac:(lia)) in *. split.
      * intros i r Hi Hlt Hr. apply Helem; [lia | exact Hlt | exact Hr].
      * intros j Hj. apply Hframe. lia.
Qed.

End HalfFloat.




(** * Further properties of the manager *)

(** ** What a write can and cannot change *)

Lemma length_splice (c data : list byte) (off doff n : Z) :
  0 <= off -> 0 <= doff -> 0 <= n ->
  off + n <= byteLengthOf c -> doff + n <= byteLengthOf data ->
  length (Device.splice c off data doff n) = length c.
Proof.
  unfold byteLengthOf, Device.splice. intros.
  rewrite !length_app, !length_take, !length_drop. lia.
Qed.

(** A device write either throws and leaves the state alone, or passes
    every check and stores the spliced contents. *)
Lemma writeBuffer_cases (g : GPUBuffer) (off : Z) (data : list byte) (doff n : Z) (s : State) :
  (exists e, Device.writeBuffer g off data doff n s = (Throw e, s)) \/
  (exists b,
      deviceBuffers s !! g = Some b /\ destroyed b = false /\
      0 <= off /\ 0 <= doff /\ 0 <= n /\
      doff + n <= byteLengthOf data /\ n mod 4 = 0 /\ off mod 4 = 0 /\
      off + n <= size b /\
      Device.writeBuffer g off data doff n s = (Ok tt, Device.written s g b off data doff n)).
Proof.
  unfold Device.writeBuffer.
  destruct (Z.ltb_spec off 0); [left; eexists; reflexivity |].
  destruct (Z.ltb_spec doff 0); [left; eexists; reflexivity |].
  destruct (Z.ltb_spec n 0); [left; eexists; reflexivity |].
  cbn [orb].
  destruct (Z.ltb_spec (byteLengthOf data) (doff + n)); [left; eexists; reflexivity |].
  destruct (Z.eqb_spec (n mod 4) 0); [| left; eexists; reflexivity].
  cbn [orb negb]. run_step.
  destruct (deviceBuffers s !! g) as [b |] eqn:Hb; [| left; eexists; reflexivity].
  destruct (destroyed b) eqn:Hd; [left; eexists; reflexivity |].
  destruct (Z.eqb_spec (off mod 4) 0); [| left; eexists; reflexivity].
  destruct (Z.ltb_spec (size b) (off + n)); [left; eexists; reflexivity |].
  right. exists b. cbn [orb negb]. repeat split; try assumption; try lia.
Qed.

Lemma written_onlyContentsOf (s : State) (g : GPUBuffer) (b : GPUBufferState)
      (off : Z) (data : list byte) (doff n : Z) :
  deviceBuffers s !! g = Some b ->
  deviceConsistent s ->
  0 <= off -> 0 <= doff -> 0 <= n ->
  doff + n <= byteLengthOf data -> off + n <= size b ->
  onlyContentsOf g s (Device.written s g b off data doff n).
Proof.
  intros Hb Hwf Hoff Hdoff Hn Hsrc Hdst.
  destruct (Hwf g b Hb) as (_ & Hsize & _).
  unfold onlyContentsOf, Device.written. cbn.
  do 6 (split; [reflexivity |]). split.
  - intros g' Hne. apply lookup_insert_ne. congruence.
  - intros b0 Hb0. assert (b0 = b) by congruence. subst b0.
    eexists. split; [apply lookup_insert_eq |]. cbn.
    split; [reflexivity |]. split; [reflexivity |].
    apply length_splice; lia.
Qed.

Lemma onlyContentsOf_refl (g : GPUBuffer) (s : State) : onlyContentsOf g s s.
Proof.
  unfold onlyContentsOf. do 6 (split; [reflexivity |]).
  split; [reflexivity |]. intros b Hb. exists b. repeat split; assumption.
Qed.

(** ** The device stays well formed *)

Lemma bitand_not3_any (x : Z) : bitand x (bitnot 3) = 4 * (ToInt32 x / 4).
Proof.
  unfold bitand. rewrite bitnot_3.
  change (ToInt32 (-4)) with (Z.lnot (Z.ones 2)).
  rewrite <- Z.ldiff_land, Z.ldiff_ones_r by lia.
  rewrite Z.shiftl_mul_pow2, Z.shiftr_div_pow2 by lia.
  change (2 ^ 2) with 4. lia.
Qed.

Lemma alignedLength_mod4 (n : Z) : alignedLength n mod 4 = 0.
Proof.
  unfold alignedLength. rewrite bitand_not3_any, Z.mul_comm.
  apply Z.mod_mul. lia.
Qed.

Create HintDb device.

Lemma preserves_ret {A} (P : State -> Prop) (a : A) : preserves P (ret a).
Proof. intros s H. exact H. Qed.

Lemma preserves_throw {A} (P : State -> Prop) (e : Error) : preserves P (@throw A e).
Proof. intros s H. exact H. Qed.

Lemma preserves_lift {A} (P : State -> Prop) (x : outcome A) : preserves P (lift x).
Proof. intros s H. exact H. Qed.

Lemma preserves_get (P : State -> Prop) : preserves P get.
Proof. intros s H. exact H. Qed.

Lemma preserves_modify (P : State -> Prop) (f : State -> State) :
  (forall s, P s -> P (f s)) -> preserves P (modify f).
Proof. intros Hf s H. apply Hf. exact H. Qed.

Lemma preserves_bind {A B} (P : State -> Prop) (m : M A) (f : A -> M B) :
  preserves P m -> (forall a, preserves P (f a)) -> preserves P (bind m f).
Proof.
  intros Hm Hf s H. unfold bind. specialize (Hm s H).
  destruct (m s) as [[a | e] s1]; cbn [snd] in *.
  - apply Hf. exact Hm.
  - exact Hm.
Qed.

Lemma preserves_if {A} (P : State -> Prop) (c : bool) (m1 m2 : M A) :
  preserves P m1 -> preserves P m2 -> preserves P (if c then m1 else m2).
Proof. destruct c; auto. Qed.

#[local] Hint Resolve preserves_ret preserves_throw preserves_lift preserves_get
  preserves_bind preserves_if : device.

Lemma constructor_consistent (e : Engine) : deviceConsistent (constructor e).
Proof. intros g b Hb. cbn in Hb. rewrite lookup_empty in Hb. discriminate Hb. Qed.

Lemma consistent_createRawBuffer (v : ViewOrSize) (flags : Z) (m : bool) :
  preserves deviceConsistent (createRawBuffer v flags m).
Proof.
  intros s Hwf. unfold createRawBuffer, Device.createBuffer. cbn [desc_size desc_mappedAtCreation].
  destruct (Z.ltb_spec (alignedLength (requestedLength v)) 0) as [Hneg | Hpos]; [exact Hwf |].
  rewrite alignedLength_mod4. cbn [Z.eqb negb]. rewrite andb_false_r.
  run_step. cbn [snd]. intros g b Hb. cbn in Hb |- *.
  destruct (decide (g = deviceNext s)) as [-> | Hne].
  - rewrite lookup_insert_eq in Hb. injection Hb as <-. cbn [size contents].
    split; [lia |]. split; [| apply alignedLength_mod4].
    unfold byteLengthOf. rewrite length_replicate. lia.
  - rewrite lookup_insert_ne in Hb by congruence.
    destruct (Hwf g b Hb) as (H1 & H2 & H3). repeat split; [lia | assumption | assumption].
Qed.

Lemma consistent_written (s : State) (g : GPUBuffer) (b : GPUBufferState)
      (off : Z) (data : list byte) (doff n : Z) :
  deviceBuffers s !! g = Some b ->
  deviceConsistent s ->
  0 <= off -> 0 <= doff -> 0 <= n ->
  doff + n <= byteLengthOf data -> off + n <= size b ->
  deviceConsistent (Device.written s g b off data doff n).
Proof.
  intros Hb Hwf Hoff Hdoff Hn Hsrc Hdst g' b' Hb'.
  destruct (Hwf g b Hb) as (Hg & Hsize & H4).
  unfold Device.written in Hb' |- *. cbn in Hb' |- *.
  destruct (decide (g' = g)) as [-> | Hne].
  - rewrite lookup_insert_eq in Hb'. injection Hb' as <-. cbn [size contents].
    split; [exact Hg |]. split; [| exact H4].
    unfold byteLengthOf. rewrite length_splice by lia. exact Hsize.
  - rewrite lookup_insert_ne in Hb' by congruence. apply Hwf. exact Hb'.
Qed.

Lemma consistent_setRawData (g : GPUBuffer) (dst : Z) (src : ArrayBufferView) (so bl : Z) :
  preserves deviceConsistent (setRawData g dst src so bl).
Proof.
  intros s Hwf. unfold setRawData.
  destruct (writeBuffer_cases g dst (Js.buffer src) (so + byteOffset src) bl s)
    as [(e & Hthrow) | (b & Hb & Hlive & H1 & H2 & H3 & H4 & H5 & H6 & H7 & Hok)].
  - rewrite Hthrow. exact Hwf.
  - rewrite Hok. cbn [snd]. apply consistent_written; assumption.
Qed.

Lemma preserves_lookupDataBuffer (P : State -> Prop) (r : DataBufferRef) :
  preserves P (lookupDataBuffer r).
Proof.
  unfold lookupDataBuffer. apply preserves_bind; [auto with device | intros s0].
  destruct (dataBuffers s0 !! r); auto with device.
Qed.

Lemma consistent_setSubData (r : DataBufferRef) (dst : Z) (src : ArrayBufferView) (so bl : Z) :
  preserves deviceConsistent (setSubData r dst src so bl).
Proof.
  unfold setSubData.
  apply preserves_bind; [apply preserves_lookupDataBuffer | intros d].
  cbv zeta. apply preserves_bind; [auto with device | intros es].
  apply consistent_setRawData.
Qed.

Lemma consistent_createBuffer (v : ViewOrSize) (flags : Z) :
  preserves deviceConsistent (createBuffer v flags).
Proof.
  unfold createBuffer.
  apply preserves_bind; [auto with device | intros s0].
  apply preserves_bind; [apply preserves_modify; intros s H; exact H | intros _].
  apply preserves_bind; [apply consistent_createRawBuffer | intros raw].
  apply preserves_bind; [auto with device | intros s1].
  apply preserves_bind; [apply preserves_modify; intros s H; exact H | intros _].
  apply preserves_bind; [| auto with device].
  destruct v; [apply consistent_setSubData | auto with device].
Qed.

Lemma consistent_releaseBuffer (b : BufferArg) :
  preserves deviceConsistent (releaseBuffer b).
Proof.
  destruct b as [g | r]; cbn [releaseBuffer].
  - apply preserves_bind; [apply preserves_modify; intros s H; exact H | auto with device].
  - apply preserves_bind; [apply preserves_lookupDataBuffer | intros d].
    cbv zeta.
    apply preserves_bind; [apply preserves_modify; intros s H; exact H | intros _].
    apply preserves_if; [| auto with device].
    apply preserves_bind; [apply preserves_modify; intros s H; exact H | auto with device].
Qed.

Lemma preserves_getMappedRange (P : State -> Prop) (g : GPUBuffer) (offset n : Z) :
  preserves P (Device.getMappedRange g offset n).
Proof.
  unfold Device.getMappedRange. apply preserves_bind; [auto with device | intros s0].
  destruct (deviceBuffers s0 !! g); auto with device.
Qed.

Lemma consistent_settle (FromHalfFloat : Z -> Z) (p : PendingRead) (r : MapResult unit) :
  preserves deviceConsistent (settle FromHalfFloat p r).
Proof.
  destruct r as [| reason]; cbn [settle].
  - assert (H : preserves deviceConsistent (onMapFulfilled FromHalfFloat p)).
    { unfold onMapFulfilled.
      apply preserves_bind; [apply preserves_getMappedRange | intros copyArrayBuffer].
      apply preserves_bind; [apply preserves_lift | intros data].
      apply preserves_bind; [apply preserves_if; auto with device | intros data'].
      apply preserves_bind; [| auto with device].
      apply preserves_if; [| auto with device].
      apply preserves_bind; [apply consistent_releaseBuffer | auto with device]. }
    intros s Hs. specialize (H s Hs).
    destruct (onMapFulfilled FromHalfFloat p s) as [[a | e] s1]; exact H.
  - unfold onMapRejected.
    apply preserves_bind; [auto with device | intros s0]. auto with device.
Qed.

Lemma consistent_destroy (g : GPUBuffer) : preserves deviceConsistent (Device.destroy g).
Proof.
  intros s Hwf g' b' Hb'. unfold Device.destroy, modify in Hb' |- *. cbn in Hb' |- *.
  destruct (deviceBuffers s !! g) as [b |] eqn:Hb; [| apply Hwf; exact Hb'].
  destruct (decide (g' = g)) as [-> | Hne].
  - rewrite lookup_insert_eq in Hb'. injection Hb' as <-. cbn [size contents].
    apply (Hwf g b Hb).
  - rewrite lookup_insert_ne in Hb' by congruence. apply Hwf. exact Hb'.
Qed.

Lemma consistent_destroyLoop (q : list GPUBuffer) : preserves deviceConsistent (destroyLoop q).
Proof.
  induction q as [| g q IH]; cbn [destroyLoop]; [auto with device |].
  apply preserves_bind; [apply consistent_destroy | intros _; exact IH].
Qed.

Lemma consistent_destroyDeferredBuffers : preserves deviceConsistent destroyDeferredBuffers.
Proof.
  unfold destroyDeferredBuffers.
  apply preserves_bind; [auto with device | intros s0].
  apply preserves_bind; [apply consistent_destroyLoop | intros _].
  apply preserves_modify. intros s H. exact H.
Qed.

Lemma consistent_step (FromHalfFloat : Z -> Z) (op : Op) (s : State) :
  deviceConsistent s -> deviceConsistent (step FromHalfFloat op s).
Proof.
  intros Hwf. destruct op; cbn [step]; unfold stateAfter.
  - apply consistent_createRawBuffer; exact Hwf.
  - apply consistent_createBuffer; exact Hwf.
  - apply consistent_setRawData; exact Hwf.
  - apply consistent_setSubData; exact Hwf.
  - apply consistent_settle; exact Hwf.
  - apply consistent_releaseBuffer; exact Hwf.
  - apply consistent_destroyDeferredBuffers; exact Hwf.
Qed.

Lemma consistent_run (FromHalfFloat : Z -> Z) (ops : list Op) (s : State) :
  deviceConsistent s -> deviceConsistent (run FromHalfFloat ops s).
Proof.
  revert s. induction ops as [| op ops IH]; intros s Hwf; cbn [run]; [exact Hwf |].
  apply IH, consistent_step, Hwf.
Qed.

Lemma sampleManager_consistent : deviceConsistent sampleManager.
Proof. apply consistent_createBuffer, constructor_consistent. Qed.

Lemma sampleReadManager_consistent : deviceConsistent sampleReadManager.
Proof. apply consistent_createBuffer, constructor_consistent. Qed.

(** X2.  Whatever sequence of manager operations runs on a fresh manager,
    and whether they return or throw, every buffer of the device holds
    exactly as many bytes as its size, and that size is a non-negative
    multiple of 4. *)
Theorem device_buffers_stay_aligned
        (FromHalfFloat : Z -> Z) (engine : Engine) (ops : list Op)
        (g : GPUBuffer) (b : GPUBufferState) :
  deviceBuffers (run FromHalfFloat ops (constructor engine)) !! g = Some b ->
  size b = byteLengthOf (contents b) /\ 0 <= size b /\ size b mod 4 = 0.
Proof.
  intros Hb.
  destruct (consistent_run FromHalfFloat ops (constructor engine)
              (constructor_consistent engine) g b Hb) as (_ & Hsize & H4).
  split; [exact Hsize |]. split; [| exact H4].
  rewrite Hsize. apply byteLengthOf_nonneg.
Qed.

Lemma device_buffers_stay_aligned_witness :
  size (mkGPUBufferState 4 [x0a; x14; x1e; x00] false)
  = byteLengthOf (contents (mkGPUBufferState 4 [x0a; x14; x1e; x00] false)) /\
  0 <= size (mkGPUBufferState 4 [x0a; x14; x1e; x00] false) /\
  size (mkGPUBufferState 4 [x0a; x14; x1e; x00] false) mod 4 = 0.
Proof.
  apply (device_buffers_stay_aligned (fun h => h) sampleEngine
           [OpCreateBuffer (OfView (mkView [x0a; x14; x1e] 0 3)) 0;
            OpReleaseBuffer (DataBufferArg 0%nat)] 0%nat).
  vm_compute. reflexivity.
Defined.

Lemma setSubData_frame
        (r : DataBufferRef) (dst : Z) (src : ArrayBufferView) (so bl : Z)
        (s : State) (d : WebGPUDataBuffer) :
  dataBuffers s !! r = Some d ->
  deviceConsistent s ->
  onlyContentsOf (underlyingResource d) s (snd (setSubData r dst src so bl s)) /\
  (forall e, fst (setSubData r dst src so bl s) = Throw e ->
             snd (setSubData r dst src so bl s) = s).
Proof.
  intros Hd Hwf. rewrite (setSubData_run r dst src so bl s d Hd).
  destruct (effectiveSource _ _ _ _) as [es | e].
  - unfold setRawData.
    destruct (writeBuffer_cases (underlyingResource d) (dst - startPre dst)
                (Js.buffer (fst es)) (snd es + byteOffset (fst es))
                (widenedLength (effectiveLength src so bl) (startPre dst)) s)
      as [(e & Hthrow) | (b & Hb & Hlive & H1 & H2 & H3 & H4 & H5 & H6 & H7 & Hok)].
    + rewrite Hthrow. cbn. split; [apply onlyContentsOf_refl | reflexivity].
    + rewrite Hok. cbn. split; [| intros e He; discriminate He].
      apply written_onlyContentsOf; assumption.
  - cbn. split; [apply onlyContentsOf_refl | reflexivity].
Qed.


(** X1.  Whatever its arguments, [setSubData] changes nothing but the
    contents of the handle's device buffer: the engine, the deferred queue,
    the handles, every other buffer, and the size and liveness of the
    written buffer are as before; and when it throws, the state is exactly
    the one it started from. *)
Theorem setSubData_touches_only_the_target
        (r : DataBufferRef) (dst : Z) (src : ArrayBufferView) (so bl : Z)
        (s : State) (d : WebGPUDataBuffer) :
  dataBuffers s !! r = Some d ->
  deviceConsistent s ->
  onlyContentsOf (underlyingResource d) s (snd (setSubData r dst src so bl s)) /\
  (forall e, fst (setSubData r dst src so bl s) = Throw e ->
             snd (setSubData r dst src so bl s) = s).
Proof. apply setSubData_frame. Qed.

Lemma setSubData_touches_only_the_target_witness :
  onlyContentsOf 0%nat sampleManager
    (snd (setSubData 0%nat 1 (mkView [x0a; x14; x1e; x28] 0 4) 1 2 sampleManager)) /\
  (forall e, fst (setSubData 0%nat 1 (mkView [x0a; x14; x1e; x28] 0 4) 1 2 sampleManager) = Throw e ->
             snd (setSubData 0%nat 1 (mkView [x0a; x14; x1e; x28] 0 4) 1 2 sampleManager)
             = sampleManager).
Proof.
  apply (setSubData_touches_only_the_target 0%nat 1 (mkView [x0a; x14; x1e; x28] 0 4) 1 2
           sampleManager (mkDataBuffer 0%nat 1 8 7)).
  - vm_compute. reflexivity.
  - exact sampleManager_consistent.
Defined.

(** ** Partial writes: what is read back, what is left alone *)

Lemma splice_outside (c data : list byte) (off doff n : Z) (j : nat) :
  0 <= off -> 0 <= doff -> 0 <= n ->
  off + n <= byteLengthOf c -> doff + n <= byteLengthOf data ->
  Z.of_nat j < off \/ off + n <= Z.of_nat j ->
  Device.splice c off data doff n !! j = c !! j.
Proof.
  unfold byteLengthOf, Device.splice. intros Hoff Hdoff Hn Hc Hdata [Hj | Hj].
  - rewrite lookup_app_l by (rewrite length_take; lia).
    apply lookup_take_lt. lia.
  - rewrite lookup_app_r by (rewrite length_take; lia).
    rewrite lookup_app_r by (rewrite !length_take, length_drop; lia).
    rewrite !length_take, length_drop, lookup_drop. f_equal. lia.
Qed.

(** X3.  A partial write reads back: when [setSubData] goes through the
    direct path (the backing buffer has the widened length after the view's
    start), or when the destination offset is a multiple of 4, the window
    [dstByteOffset, dstByteOffset + byteLength) of the device buffer holds
    afterwards exactly the source bytes. *)
Theorem setSubData_window_reads_back
        (r : DataBufferRef) (dst : Z) (src : ArrayBufferView) (so bl : Z)
        (s : State) (d : WebGPUDataBuffer) (b : GPUBufferState) :
  let n := effectiveLength src so bl in
  let sp := startPre dst in
  let L := widenedLength n sp in
  let a := byteOffset src + so - sp in
  dataBuffers s !! r = Some d ->
  deviceBuffers s !! underlyingResource d = Some b ->
  destroyed b = false ->
  deviceConsistent s ->
  0 <= dst -> 0 <= n -> n + sp + 3 < 2 ^ 31 ->
  0 <= a -> a + n <= byteLengthOf (Js.buffer src) ->
  (L <= byteLengthOf (Js.buffer src) - byteOffset src -> a + L <= byteLengthOf (Js.buffer src)) ->
  dst - sp + L <= size b ->
  L <= byteLengthOf (Js.buffer src) - byteOffset src \/ dst mod 4 = 0 ->
  fst (setSubData r dst src so bl s) = Ok tt /\
  Device.readWindow (snd (setSubData r dst src so bl s)) (underlyingResource d) dst n
  = Some (take (Z.to_nat n) (drop (Z.to_nat (byteOffset src + so)) (Js.buffer src))).
Proof.
  intros n sp L a Hd Hb Hlive Hwf Hdst Hn Hwrap Ha Hwin Hdir Hfit Hpath.
  destruct (Hwf _ b Hb) as (_ & Hsize & _).
  split.
  - destruct (setSubData_written r dst src so bl s d b Hd Hb Hlive Hdst Hn Hwrap Ha Hwin Hdir Hfit)
      as (es & _ & Hrun).
    rewrite Hrun. reflexivity.
  - apply (setSubData_round_trip r dst src so bl s d b); try assumption.
    destruct Hpath as [Hp | Hp]; [left; exact Hp | right].
    destruct (startPre_range dst) as [_ Hsp]. fold sp in Hsp. lia.
Qed.

Lemma setSubData_window_reads_back_witness :
  fst (setSubData 0%nat 5 (mkView [x0a; x14; x1e; x28; x32; x3c; x46; x50] 0 8) 5 2
                  sampleManager) = Ok tt /\
  Device.readWindow
    (snd (setSubData 0%nat 5 (mkView [x0a; x14; x1e; x28; x32; x3c; x46; x50] 0 8) 5 2
                     sampleManager)) 0%nat 5 2
  = Some (take (Z.to_nat 2) (drop (Z.to_nat (0 + 5)) [x0a; x14; x1e; x28; x32; x3c; x46; x50])).
Proof.
  apply (setSubData_window_reads_back 0%nat 5
           (mkView [x0a; x14; x1e; x28; x32; x3c; x46; x50] 0 8) 5 2 sampleManager
           (mkDataBuffer 0%nat 1 8 7) (mkGPUBufferState 8 (replicate 8 x00) false));
    try exact sampleManager_consistent; try by_compute.
  left. by_compute.
Defined.

(** X4.  A partial write stays within the widened window: after a
    successful [setSubData], every byte of the device buffer in front of
    [dstByteOffset - dstByteOffset mod 4] or from the aligned end on is the
    byte that was there before, so at most 3 bytes on either side of the
    requested window can change. *)
Theorem setSubData_leaves_bytes_outside_widened_window
        (r : DataBufferRef) (dst : Z) (src : ArrayBufferView) (so bl : Z)
        (s : State) (d : WebGPUDataBuffer) (b : GPUBufferState) :
  let n := effectiveLength src so bl in
  let sp := startPre dst in
  let L := widenedLength n sp in
  dataBuffers s !! r = Some d ->
  deviceBuffers s !! underlyingResource d = Some b ->
  deviceConsistent s ->
  0 <= n -> n + sp + 3 < 2 ^ 31 ->
  fst (setSubData r dst src so bl s) = Ok tt ->
  exists b',
    deviceBuffers (snd (setSubData r dst src so bl s)) !! underlyingResource d = Some b' /\
    dst - 3 <= dst - sp /\ dst - sp + L < dst + n + 4 /\
    (forall j, Z.of_nat j < dst - sp \/ dst - sp + L <= Z.of_nat j ->
               contents b' !! j = contents b !! j).
Proof.
  intros n sp L Hd Hb Hwf Hn Hwrap Hok.
  destruct (Hwf _ b Hb) as (_ & Hsize & _).
  destruct (startPre_range dst) as [Hsp _]. fold sp in Hsp.
  destruct (widenedLength_bounds n sp ltac:(lia)) as [HL _]. fold L in HL.
  rewrite (setSubData_run r dst src so bl s d Hd) in Hok |- *. fold n sp L in Hok |- *.
  destruct (effectiveSource src (so - sp) n L) as [es | e]; [| discriminate Hok].
  unfold setRawData in Hok |- *.
  destruct (writeBuffer_cases (underlyingResource d) (dst - sp)
              (Js.buffer (fst es)) (snd es + byteOffset (fst es)) L s)
    as [(e & Hthrow) | (b0 & Hb0 & Hlive & H1 & H2 & H3 & H4 & H5 & H6 & H7 & Hrun)].
  - rewrite Hthrow in Hok. discriminate Hok.
  - assert (b0 = b) by congruence. subst b0. rewrite Hrun. cbn [snd].
    eexists. split; [unfold Device.written; cbn; apply lookup_insert_eq |].
    split; [lia |]. split; [lia |].
    intros j Hj. cbn [contents]. apply splice_outside; lia.
Qed.

Lemma setSubData_leaves_bytes_outside_widened_window_witness :
  exists b',
    deviceBuffers
      (snd (setSubData 0%nat 5 (mkView [x0a; x14; x1e; x28; x32; x3c; x46; x50] 0 8) 5 2
                       sampleManager)) !! 0%nat = Some b' /\
    5 - 3 <= 5 - 1 /\ 5 - 1 + 4 < 5 + 2 + 4 /\
    (forall j, Z.of_nat j < 5 - 1 \/ 5 - 1 + 4 <= Z.of_nat j ->
               contents b' !! j = replicate 8 x00 !! j).
Proof.
  apply (setSubData_leaves_bytes_outside_widened_window 0%nat 5
           (mkView [x0a; x14; x1e; x28; x32; x3c; x46; x50] 0 8) 5 2 sampleManager
           (mkDataBuffer 0%nat 1 8 7) (mkGPUBufferState 8 (replicate 8 x00) false));
    try exact sampleManager_consistent; by_compute.
Defined.

(** ** A handle shared by several holders *)

Lemma releaseTimes_spec (n k : nat) (r : DataBufferRef) (d : WebGPUDataBuffer) (s : State) :
  dataBuffers s !! r = Some d ->
  references d = Z.of_nat n ->
  (k <= n)%nat ->
  dataBuffers (releaseTimes k r s) !! r
  = Some (mkDataBuffer (underlyingResource d) (Z.of_nat n - Z.of_nat k) (capacity d) (engineId d)) /\
  _deferredReleaseBuffers (releaseTimes k r s)
  = (if (0 <? k)%nat && (k =? n)%nat
     then _deferredReleaseBuffers s ++ [underlyingResource d]
     else _deferredReleaseBuffers s).
Proof.
  intros Hd Href. induction k as [| k IH]; intros Hk.
  - cbn. split; [| reflexivity]. rewrite Hd. f_equal. destruct d. cbn in *. f_equal. lia.
  - destruct (IH ltac:(lia)) as [Hdk Hqk].
    change (releaseTimes (S k) r s)
      with (stateAfter (releaseBuffer (DataBufferArg r)) (releaseTimes k r s)).
    unfold stateAfter.
    rewrite (releaseBuffer_handle r _ _ Hdk). cbv zeta.
    cbn [references decremented underlyingResource capacity engineId].
    replace ((0 <? k)%nat && (k =? n)%nat) with false in Hqk
      by (symmetry; apply andb_false_iff; right; apply Nat.eqb_neq; lia).
    destruct (Z.eqb_spec (Z.of_nat n - Z.of_nat k - 1) 0) as [Hz | Hnz].
    + assert (S k = n) by lia. subst n. cbn [snd]. split.
      * cbn [dataBuffers with_dataBuffers with_deferred deviceBuffers _engine deviceNext
             destroyCalls _deferredReleaseBuffers dataBufferCounter].
        rewrite lookup_insert_eq. unfold decremented.
        cbn [references underlyingResource capacity engineId]. do 2 f_equal. lia.
      * cbn [_deferredReleaseBuffers with_deferred with_dataBuffers].
        rewrite Nat.eqb_refl. cbn [Nat.ltb Nat.leb andb].
        rewrite Hqk. reflexivity.
    + cbn [snd]. split.
      * cbn [dataBuffers with_dataBuffers with_deferred deviceBuffers _engine deviceNext
             destroyCalls _deferredReleaseBuffers dataBufferCounter].
        rewrite lookup_insert_eq. unfold decremented.
        cbn [references underlyingResource capacity engineId]. do 2 f_equal. lia.
      * replace ((0 <? S k)%nat && (S k =? n)%nat) with false
          by (symmetry; apply andb_false_iff; right; apply Nat.eqb_neq; lia).
        cbn [_deferredReleaseBuffers with_deferred with_dataBuffers]. exact Hqk.
Qed.

(** X5.  A handle held [n >= 1] times is enqueued exactly by its [n]-th
    release: each of the first [n - 1] calls of [releaseBuffer] returns
    false and leaves the deferred queue as it was, the [n]-th returns true
    and appends the underlying buffer, once. *)
Theorem shared_handle_enqueued_on_last_release
        (n : nat) (r : DataBufferRef) (d : WebGPUDataBuffer) (s : State) :
  dataBuffers s !! r = Some d ->
  references d = Z.of_nat n ->
  (1 <= n)%nat ->
  (forall k, (k < n)%nat ->
             fst (releaseBuffer (DataBufferArg r) (releaseTimes k r s)) = Ok (S k =? n)%nat /\
             _deferredReleaseBuffers (releaseTimes k r s) = _deferredReleaseBuffers s) /\
  _deferredReleaseBuffers (releaseTimes n r s)
  = _deferredReleaseBuffers s ++ [underlyingResource d].
Proof.
  intros Hd Href Hn. split.
  - intros k Hk.
    destruct (releaseTimes_spec n k r d s Hd Href ltac:(lia)) as [Hdk Hqk].
    replace ((0 <? k)%nat && (k =? n)%nat) with false in Hqk
      by (symmetry; apply andb_false_iff; right; apply Nat.eqb_neq; lia).
    split; [| exact Hqk].
    rewrite (releaseBuffer_handle r _ _ Hdk). cbv zeta. cbn [references].
    destruct (Z.eqb_spec (Z.of_nat n - Z.of_nat k - 1) 0) as [Hz | Hnz]; cbn [fst].
    + replace (S k =? n)%nat with true by (symmetry; apply Nat.eqb_eq; lia). reflexivity.
    + replace (S k =? n)%nat with false by (symmetry; apply Nat.eqb_neq; lia). reflexivity.
  - destruct (releaseTimes_spec n n r d s Hd Href ltac:(lia)) as [_ Hq].
    rewrite Nat.eqb_refl in Hq.
    replace (0 <? n)%nat with true in Hq by (symmetry; apply Nat.ltb_lt; lia).
    exact Hq.
Qed.

(** A manager whose handle 0 is held three times. *)
Lemma shared_handle_enqueued_on_last_release_witness :
  let s := with_dataBuffers {[0%nat := mkDataBuffer 0%nat 3 8 7]} sampleManager in
  (forall k, (k < 3)%nat ->
             fst (releaseBuffer (DataBufferArg 0%nat) (releaseTimes k 0%nat s))
             = Ok (S k =? 3)%nat /\
             _deferredReleaseBuffers (releaseTimes k 0%nat s) = _deferredReleaseBuffers s) /\
  _deferredReleaseBuffers (releaseTimes 3 0%nat s) = _deferredReleaseBuffers s ++ [0%nat].
Proof.
  apply (shared_handle_enqueued_on_last_release 3 0%nat (mkDataBuffer 0%nat 3 8 7)
           (with_dataBuffers {[0%nat := mkDataBuffer 0%nat 3 8 7]} sampleManager)).
  - vm_compute. reflexivity.
  - reflexivity.
  - lia.
Defined.

(** ** What a new buffer holds *)




(** ** Read-back without padding, and how a fulfilled read can end *)

Lemma getMappedRange_ok (g : GPUBuffer) (b : GPUBufferState) (offset n : Z) (s : State) :
  deviceBuffers s !! g = Some b -> destroyed b = false ->
  0 <= offset -> offset mod 8 = 0 -> 0 <= n -> n mod 4 = 0 -> offset + n <= size b ->
  Device.getMappedRange g offset n s
  = (Ok (take (Z.to_nat n) (drop (Z.to_nat offset) (contents b))), s).
Proof.
  intros Hb Hlive Ho Ho8 Hn Hn4 Hfit. unfold Device.getMappedRange. run_step.
  rewrite Hb, Hlive, Ho8, Hn4.
  destruct (Z.ltb_spec offset 0); [lia |]. destruct (Z.ltb_spec n 0); [lia |].
  destruct (Z.ltb_spec (size b) (offset + n)); [lia |].
  reflexivity.
Qed.

Lemma setBytes_same_length (target copyBuffer : list byte) :
  length target = length copyBuffer -> setBytes target copyBuffer = Ok copyBuffer.
Proof.
  intros Hlen. unfold setBytes, byteLengthOf. rewrite Hlen.
  rewrite Z.ltb_irrefl. rewrite <- Hlen, drop_all, app_nil_r. reflexivity.
Qed.

Lemma convertMapped_fresh_raw (FromHalfFloat : Z -> Z) (type : TextureType) (n : Z)
      (copyArrayBuffer : list byte) (noDataConversion : bool) :
  byteLengthOf copyArrayBuffer = n -> n mod 4 = 0 ->
  floatFormat type <> 1 \/ noDataConversion = true ->
  convertMapped FromHalfFloat type n copyArrayBuffer None noDataConversion
  = Ok (mkView copyArrayBuffer 0 n).
Proof.
  intros Hlen H4 Hkind.
  assert (Hn : 0 <= n) by (rewrite <- Hlen; apply byteLengthOf_nonneg).
  assert (Hnew : newUint8Array n = Ok (replicate (Z.to_nat n) x00)).
  { unfold newUint8Array. destruct (Z.ltb_spec n 0); [lia | reflexivity]. }
  assert (Hset : setBytes (replicate (Z.to_nat n) x00) copyArrayBuffer = Ok copyArrayBuffer).
  { apply setBytes_same_length. rewrite length_replicate. unfold byteLengthOf in Hlen. lia. }
  unfold convertMapped. destruct noDataConversion.
  - unfold allocateAndCopyTypedBuffer. rewrite Hnew. cbn [obind]. rewrite Hset. cbn [obind].
    rewrite Hlen. reflexivity.
  - destruct Hkind as [Hkind | Hkind]; [| discriminate Hkind].
    destruct (Z.eqb_spec (floatFormat type) 0) as [H0 | H0].
    + rewrite Hnew. cbn [obind]. unfold wholeBufferSet, wholeElements.
      rewrite !Z.mod_1_r. cbn [Z.eqb obind]. rewrite Hset. cbn [obind].
      rewrite Hlen. reflexivity.
    + destruct (Z.eqb_spec (floatFormat type) 1) as [H1 | H1]; [contradiction |].
      unfold newFloat32Array.
      assert (Hq : (4 * Z.to_nat (Z.quot n 4))%nat = Z.to_nat n).
      { rewrite Z.quot_div_nonneg by lia.
        apply Z.mod_divide in H4 as [c Hc]; [| lia]. rewrite Hc, Z.div_mul by lia. lia. }
      destruct (Z.ltb_spec (Z.quot n 4) 0) as [Hneg | _].
      { rewrite Z.quot_div_nonneg in Hneg by lia.
        pose proof (Z.div_pos n 4 Hn ltac:(lia)). lia. }
      cbn [obind]. rewrite Hq. unfold wholeBufferSet, wholeElements.
      unfold byteLengthOf at 1. rewrite length_replicate, Z2Nat.id, H4 by lia.
      rewrite Hlen, H4. cbn [Z.eqb obind]. rewrite Hset. cbn [obind].
      rewrite Hlen. reflexivity.
Qed.

Lemma readback_raw_bytes
        {Reason : Type} (FromHalfFloat : Z -> Z) (p : PendingRead) (s : State)
        (b : GPUBufferState) :
  deviceBuffers s !! rd_gpuBuffer p = Some b ->
  destroyed b = false ->
  deviceConsistent s ->
  0 <= rd_offset p -> rd_offset p mod 8 = 0 ->
  0 <= rd_size p -> rd_size p mod 4 = 0 ->
  rd_offset p + rd_size p <= size b ->
  rd_bytesPerRow p = rd_bytesPerRowAligned p ->
  rd_buffer p = None ->
  floatFormat (rd_type p) <> 1 \/ rd_noDataConversion p = true ->
  settle FromHalfFloat p (@MapFulfilled Reason) s
  = (Ok (Resolved (mkView (take (Z.to_nat (rd_size p))
                             (drop (Z.to_nat (rd_offset p)) (contents b)))
                          0 (rd_size p))),
     if rd_destroyBuffer p
     then with_deferred (_deferredReleaseBuffers s ++ [rd_gpuBuffer p]) s
     else s).
Proof.
  intros Hb Hlive Hwf Ho Ho8 Hn Hn4 Hfit Hrows Hdest Hkind.
  destruct (Hwf _ b Hb) as (_ & Hsize & _).
  cbn [settle]. unfold onMapFulfilled.
  rewrite (bind_ok _ _ s s _ (getMappedRange_ok _ b _ _ s Hb Hlive Ho Ho8 Hn Hn4 Hfit)).
  rewrite Hdest, convertMapped_fresh_raw; try assumption.
  - unfold bind at 1, lift at 1. rewrite Hrows, Z.eqb_refl. cbn [negb].
    destruct (rd_destroyBuffer p); reflexivity.
  - unfold byteLengthOf in *. rewrite length_take, length_drop. lia.
Qed.

(** X7.  A read whose rows carry no padding ([bytesPerRow =
    bytesPerRowAligned]), into a fresh buffer, of a type other than half
    float or with conversion switched off, resolves with exactly the bytes
    of the mapped window of the device buffer, and the buffer joins the
    deferred queue if and only if [destroyBuffer] is set. *)
Theorem readback_without_padding_returns_mapped_bytes
        {Reason : Type} (FromHalfFloat : Z -> Z) (p : PendingRead) (s : State)
        (b : GPUBufferState) :
  deviceBuffers s !! rd_gpuBuffer p = Some b ->
  destroyed b = false ->
  deviceConsistent s ->
  0 <= rd_offset p -> rd_offset p mod 8 = 0 ->
  0 <= rd_size p -> rd_size p mod 4 = 0 ->
  rd_offset p + rd_size p <= size b ->
  rd_bytesPerRow p = rd_bytesPerRowAligned p ->
  rd_buffer p = None ->
  floatFormat (rd_type p) <> 1 \/ rd_noDataConversion p = true ->
  settle FromHalfFloat p (@MapFulfilled Reason) s
  = (Ok (Resolved (mkView (take (Z.to_nat (rd_size p))
                             (drop (Z.to_nat (rd_offset p)) (contents b)))
                          0 (rd_size p))),
     if rd_destroyBuffer p
     then with_deferred (_deferredReleaseBuffers s ++ [rd_gpuBuffer p]) s
     else s).
Proof.
  intros Hb Hlive Hwf Ho Ho8 Hn Hn4 Hfit Hrows Hdest Hkind.
  apply readback_raw_bytes; assumption.
Qed.

Lemma readback_without_padding_returns_mapped_bytes_witness :
  settle (fun h => h)
         (mkPendingRead 0%nat 8 2 1 8 8 TEXTURETYPE_UNSIGNED_BYTE 8 None false false 7)
         (@MapFulfilled unit) sampleReadManager
  = (Ok (Resolved (mkView (take (Z.to_nat 8) (drop (Z.to_nat 8) sampleRows)) 0 8)),
     sampleReadManager).
Proof.
  apply (@readback_without_padding_returns_mapped_bytes unit (fun h => h)
           (mkPendingRead 0%nat 8 2 1 8 8 TEXTURETYPE_UNSIGNED_BYTE 8 None false false 7)
           sampleReadManager (mkGPUBufferState 16 sampleRows false));
    try exact sampleReadManager_consistent; try by_compute.
Defined.



(** X9.  Reading half floats into a fresh array turns every 16-bit element
    of the mapped range into one 32-bit element: the result holds twice as
    many bytes as were mapped, and its element [i] is [FromHalfFloat] of
    the [i]-th half float. *)
Theorem half_float_read_promotes_each_element
        (FromHalfFloat : Z -> Z) (n : Z) (copyArrayBuffer : list byte) :
  byteLengthOf copyArrayBuffer = n ->
  n mod 2 = 0 ->
  exists out,
    convertMapped FromHalfFloat TEXTURETYPE_HALF_FLOAT n copyArrayBuffer None false = Ok out /\
    byteOffset out = 0 /\ byteLength out = 2 * n /\
    byteLengthOf (Js.buffer out) = 2 * n /\
    (forall i, Z.of_nat i < n / 2 ->
               exists h,
                 getUint16 copyArrayBuffer i = Some h /\
                 forall r, (r < 4)%nat ->
                           Js.buffer out !! (4 * i + r)%nat
                           = bytesOfWord (FromHalfFloat h) !! r).
Proof.
  intros Hlen Heven.
  assert (Hn : 0 <= n) by (rewrite <- Hlen; apply byteLengthOf_nonneg).
  apply Z.mod_divide in Heven as [c Hc]; [| lia].
  assert (Hhalf : n / 2 = c) by (rewrite Hc; apply Z.div_mul; lia).
  unfold convertMapped. cbn [floatFormat Z.eqb].
  unfold _getHalfFloatAsFloatRGBAArrayBuffer, newFloat32Array, wholeElements.
  rewrite Hhalf. destruct (Z.ltb_spec c 0); [lia |]. cbn [obind].
  rewrite Hlen, Hc, Z.mod_mul by lia. cbn [Z.eqb obind].
  set (fresh := replicate (4 * Z.to_nat c) x00).
  assert (Hfresh : byteLengthOf fresh = 4 * c).
  { subst fresh. unfold byteLengthOf. rewrite length_replicate. lia. }
  rewrite Hfresh.
  assert (Hwf : viewInBuffer (mkView fresh 0 (4 * c))).
  { unfold viewInBuffer. cbn [byteOffset byteLength Js.buffer]. lia. }
  destruct (halfFloatLoop_spec FromHalfFloat copyArrayBuffer (Z.to_nat c) _ Hwf)
    as (Ho & Hl & Hlen' & Helem & _).
  cbn [byteOffset byteLength Js.buffer] in Ho, Hl, Hlen', Helem.
  eexists. split; [reflexivity |].
  split; [exact Ho |]. split; [rewrite Hl; lia |].
  split; [unfold byteLengthOf in *; rewrite Hlen'; lia |].
  intros i Hi.
  assert (Hlo : is_Some (copyArrayBuffer !! (2 * i)%nat))
    by (apply lookup_lt_is_Some_2; unfold byteLengthOf in Hlen; lia).
  assert (Hhi : is_Some (copyArrayBuffer !! (2 * i + 1)%nat))
    by (apply lookup_lt_is_Some_2; unfold byteLengthOf in Hlen; lia).
  destruct Hlo as [lo Hlo], Hhi as [hi Hhi].
  exists (Z.of_N (Byte.to_N lo) + 256 * Z.of_N (Byte.to_N hi)).
  split; [unfold getUint16; rewrite Hlo, Hhi; reflexivity |].
  intros r Hr.
  specialize (Helem i r ltac:(lia)).
  assert (Hquot : Z.quot (4 * c) 4 = c).
  { rewrite Z.quot_div_nonneg by lia. rewrite Z.mul_comm. apply Z.div_mul. lia. }
  rewrite Hquot in Helem. specialize (Helem ltac:(lia) Hr).
  change (Z.to_nat 0) with 0%nat in Helem. cbn [Nat.add] in Helem.
  rewrite Helem. unfold getUint16. rewrite Hlo, Hhi. reflexivity.
Qed.

Lemma half_float_read_promotes_each_element_witness :
  exists out,
    convertMapped (fun h => h * 3) TEXTURETYPE_HALF_FLOAT 4 sampleHalves None false = Ok out /\
    byteOffset out = 0 /\ byteLength out = 2 * 4 /\
    byteLengthOf (Js.buffer out) = 2 * 4 /\
    (forall i, Z.of_nat i < 4 / 2 ->
               exists h,
                 getUint16 sampleHalves i = Some h /\
                 forall r, (r < 4)%nat ->
                           Js.buffer out !! (4 * i + r)%nat
                           = bytesOfWord ((fun h => h * 3) h) !! r).
Proof.
  apply (half_float_read_promotes_each_element (fun h => h * 3) 4 sampleHalves); by_compute.
Defined.

(** ** Deferred destruction *)

Lemma destroyed_or_false (b : GPUBufferState) :
  mkGPUBufferState (size b) (contents b) (destroyed b || false) = b.
Proof. destruct b. cbn. rewrite orb_false_r. reflexivity. Qed.

Lemma destroyLoop_device (q : list GPUBuffer) (s : State) (g : GPUBuffer) :
  deviceBuffers (snd (destroyLoop q s)) !! g
  = (fun b => mkGPUBufferState (size b) (contents b)
                               (destroyed b || bool_decide (g ∈ q)))
      <$> deviceBuffers s !! g.
Proof.
  revert s. induction q as [| g0 q IH]; intros s.
  - cbn [destroyLoop ret snd].
    destruct (deviceBuffers s !! g) as [b |]; [| reflexivity].
    cbn. rewrite bool_decide_eq_false_2 by (intros H; inversion H).
    rewrite destroyed_or_false. reflexivity.
  - cbn [destroyLoop]. unfold bind at 1. unfold Device.destroy at 1, modify.
    rewrite IH. cbn [deviceBuffers with_destroyCalls with_deviceBuffers].
    destruct (decide (g = g0)) as [-> | Hne].
    + rewrite (bool_decide_eq_true_2 (g0 ∈ g0 :: q)) by (left).
      destruct (deviceBuffers s !! g0) as [b |] eqn:Hb.
      * rewrite lookup_insert_eq. cbn. rewrite orb_true_r. reflexivity.
      * rewrite Hb. reflexivity.
    + assert (Hdec : bool_decide (g ∈ g0 :: q) = bool_decide (g ∈ q)).
      { apply bool_decide_ext. rewrite elem_of_cons.
        split; [intros [Heq | Hin]; [contradiction | exact Hin] | intros Hin; right; exact Hin]. }
      rewrite Hdec.
      destruct (deviceBuffers s !! g0) as [b |];
        [rewrite lookup_insert_ne by congruence |]; reflexivity.
Qed.

Lemma sweep_destroys_exactly_the_queue_aux (s : State) (g : GPUBuffer) :
  deviceBuffers (snd (destroyDeferredBuffers s)) !! g
  = (fun b => mkGPUBufferState (size b) (contents b)
                (destroyed b || bool_decide (g ∈ _deferredReleaseBuffers s)))
      <$> deviceBuffers s !! g.
Proof.
  unfold destroyDeferredBuffers. run_step.
  pose proof (destroyLoop_device (_deferredReleaseBuffers s) s g) as H.
  destruct (destroyLoop (_deferredReleaseBuffers s) s) as [[[] | e] s1];
    cbn [snd] in *; exact H.
Qed.

(** X10.  The sweep destroys exactly the queued buffers: after
    [destroyDeferredBuffers] every device buffer has the size and contents
    it had, and is destroyed if and only if it already was or stood in the
    deferred queue; a buffer that was not queued is untouched. *)
Theorem sweep_destroys_exactly_the_queue (s : State) (g : GPUBuffer) :
  deviceBuffers (snd (destroyDeferredBuffers s)) !! g
  = (fun b => mkGPUBufferState (size b) (contents b)
                (destroyed b || bool_decide (g ∈ _deferredReleaseBuffers s)))
      <$> deviceBuffers s !! g.
Proof. apply sweep_destroys_exactly_the_queue_aux. Qed.




(** ** Upload, then read back *)



(** ** Aligned input needs no correction *)

(** X13.  On aligned input the correction is the identity: when the
    destination offset and the byte length are multiples of 4 and the
    backing buffer holds that many bytes after the view's start,
    [setSubData] does exactly what [setRawData] does with the same
    arguments. *)
Theorem setSubData_is_setRawData_on_aligned_input
        (r : DataBufferRef) (d : WebGPUDataBuffer) (s : State)
        (dst : Z) (src : ArrayBufferView) (so bl : Z) :
  let n := effectiveLength src so bl in
  dataBuffers s !! r = Some d ->
  dst mod 4 = 0 ->
  0 <= n < 2 ^ 31 - 3 -> n mod 4 = 0 ->
  n <= byteLengthOf (Js.buffer src) - byteOffset src ->
  setSubData r dst src so bl s = setRawData (underlyingResource d) dst src so n s.
Proof.
  intros n Hd Hdst Hn Hn4 Hfit.
  destruct (startPre_range dst) as [_ Hsp]. rewrite Hdst in Hsp.
  assert (HL : widenedLength n 0 = n).
  { rewrite widenedLength_eq by lia.
    apply Z.mod_divide in Hn4 as [c Hc]; [| lia]. rewrite Hc.
    replace (c * 4 + 0 + 3) with (3 + c * 4) by lia.
    rewrite Z.div_add by lia. change (3 / 4) with 0. lia. }
  rewrite (setSubData_run r dst src so bl s d Hd). fold n. rewrite Hsp, HL.
  rewrite effectiveSource_direct by exact Hfit. cbn [fst snd].
  rewrite !Z.sub_0_r. reflexivity.
Qed.

Lemma setSubData_is_setRawData_on_aligned_input_witness :
  setSubData 0%nat 4 (mkView [x0a; x14; x1e; x28] 0 4) 0 0 sampleManager
  = setRawData 0%nat 4 (mkView [x0a; x14; x1e; x28] 0 4) 0 4 sampleManager.
Proof.
  apply (setSubData_is_setRawData_on_aligned_input 0%nat (mkDataBuffer 0%nat 1 8 7)
           sampleManager 4 (mkView [x0a; x14; x1e; x28] 0 4) 0 0).
  - vm_compute. reflexivity.
  - by_compute.
  - split; by_compute.
  - by_compute.
  - by_compute.
Defined.

(** ** Usage flags in labels *)

Lemma ToInt32_testbit (x i : Z) : 0 <= i < 32 -> Z.testbit (ToInt32 x) i = Z.testbit x i.
Proof.
  intros Hi. unfold ToInt32.
  assert (Hlow : Z.testbit (x mod 2 ^ 32) i = Z.testbit x i)
    by (apply Z.mod_pow2_bits_low; lia).
  destruct (2 ^ 31 <=? x mod 2 ^ 32); [| exact Hlow].
  rewrite <- Hlow.
  rewrite <- (Z.mod_pow2_bits_low (x mod 2 ^ 32 - 2 ^ 32) 32 i) by lia.
  rewrite <- (Z.mod_pow2_bits_low (x mod 2 ^ 32) 32 i) by lia.
  f_equal.
  replace (x mod 2 ^ 32 - 2 ^ 32) with (x mod 2 ^ 32 + (-1) * 2 ^ 32) by lia.
  apply Z.mod_add. lia.
Qed.

Lemma shiftLeft_one (i : Z) : 0 <= i < 31 -> shiftLeft 1 i = 2 ^ i.
Proof.
  intros Hi. unfold shiftLeft. change (ToInt32 1) with 1.
  rewrite Z.mod_small by lia. rewrite Z.shiftl_1_l.
  apply ToInt32_small.
  assert (2 ^ i < 2 ^ 31) by (apply Z.pow_lt_mono_r; lia).
  assert (0 < 2 ^ i) by (apply Z.pow_pos_nonneg; lia).
  lia.
Qed.

Lemma land_pow2_testbit (x i : Z) :
  0 <= i -> (Z.land x (2 ^ i) =? 0) = negb (Z.testbit x i).
Proof.
  intros Hi. destruct (Z.testbit x i) eqn:Hbit; cbn [negb].
  - apply Z.eqb_neq. intros H0.
    assert (Hb : Z.testbit (Z.land x (2 ^ i)) i = true).
    { rewrite Z.land_spec, Hbit, Z.pow2_bits_true by lia. reflexivity. }
    rewrite H0, Z.bits_0 in Hb. discriminate Hb.
  - apply Z.eqb_eq. apply Z.bits_inj'. intros m Hm.
    rewrite Z.land_spec, Z.bits_0, Z.pow2_bits_eqb by lia.
    destruct (Z.eqb_spec i m) as [-> | Hne]; [rewrite Hbit; reflexivity | apply andb_false_r].
Qed.

Lemma usage_bit_test (flags i : Z) :
  0 <= i < 31 -> negb (bitand flags (shiftLeft 1 i) =? 0) = Z.testbit flags i.
Proof.
  intros Hi. rewrite shiftLeft_one by exact Hi. unfold bitand.
  assert (Hp : ToInt32 (2 ^ i) = 2 ^ i).
  { apply ToInt32_small.
    assert (2 ^ i < 2 ^ 31) by (apply Z.pow_lt_mono_r; lia).
    assert (0 < 2 ^ i) by (apply Z.pow_pos_nonneg; lia). lia. }
  rewrite Hp, land_pow2_testbit by lia.
  rewrite negb_involutive. apply ToInt32_testbit. lia.
Qed.

Lemma string_app_assoc (a b c : string) : (a +:+ b) +:+ c = a +:+ (b +:+ c).
Proof.
  induction a as [| x a IH]; [reflexivity |].
  change (String x ((a +:+ b) +:+ c) = String x (a +:+ (b +:+ c))).
  rewrite IH. reflexivity.
Qed.

Lemma string_app_nil_r (a : string) : a +:+ "" = a.
Proof.
  induction a as [| x a IH]; [reflexivity |].
  change (String x (a +:+ "") = String x a). rewrite IH. reflexivity.
Qed.

Lemma truthy_app (a b : string) : truthy a = true -> truthy (a +:+ b) = true.
Proof. destruct a; [discriminate | reflexivity]. Qed.

Lemma flagsLoop_closed (BufferUsage : Z -> string) (count : nat) (i flags : Z)
      (result : string) :
  0 <= i -> i + Z.of_nat count <= 31 ->
  truthy result = true ->
  flagsLoop BufferUsage count i flags result
  = result +:+ usageSuffix BufferUsage flags i count.
Proof.
  revert i result. induction count as [| count IH]; intros i result Hi Hend Hres.
  - cbn. symmetry. apply string_app_nil_r.
  - cbn [flagsLoop]. rewrite usage_bit_test by lia. rewrite shiftLeft_one by lia.
    unfold usageSuffix. rewrite Nat2Z.inj_succ, seqZ_cons by lia. cbn [foldr].
    replace (Z.pred (Z.succ (Z.of_nat count))) with (Z.of_nat count) by lia.
    replace (Z.succ i) with (i + 1) by lia.
    fold (usageSuffix BufferUsage flags (i + 1) count).
    destruct (Z.testbit flags i).
    + rewrite Hres, IH; try lia.
      * rewrite !string_app_assoc. reflexivity.
      * apply truthy_app, truthy_app, Hres.
    + apply IH; [lia | lia | exact Hres].
Qed.

Lemma usageSuffix_ext (BufferUsage : Z -> string) (f1 f2 i : Z) (count : nat) :
  (forall k, i <= k < i + Z.of_nat count -> Z.testbit f1 k = Z.testbit f2 k) ->
  usageSuffix BufferUsage f1 i count = usageSuffix BufferUsage f2 i count.
Proof.
  revert i. induction count as [| count IH]; intros i Hbits; [reflexivity |].
  unfold usageSuffix. rewrite Nat2Z.inj_succ, seqZ_cons by lia. cbn [foldr].
  replace (Z.pred (Z.succ (Z.of_nat count))) with (Z.of_nat count) by lia.
  fold (usageSuffix BufferUsage f1 (Z.succ i) count).
  fold (usageSuffix BufferUsage f2 (Z.succ i) count).
  rewrite (Hbits i) by lia. rewrite (IH (Z.succ i)) by (intros k Hk; apply Hbits; lia).
  reflexivity.
Qed.

(** X14.  For a non-empty [suffix], [_FlagsToString] returns the suffix
    followed, for each of the bits 0 to 9 set in [flags] and in ascending
    order, by an underscore and the usage name of that bit.  Bits above 9
    play no part, and flags without any usage bit give the suffix
    itself. *)
Theorem FlagsToString_lists_set_usage_bits
        (BufferUsage : Z -> string) (flags : Z) (suffix : string) :
  truthy suffix = true ->
  _FlagsToString BufferUsage flags suffix = suffix +:+ usageSuffix BufferUsage flags 0 10 /\
  _FlagsToString BufferUsage flags suffix = _FlagsToString BufferUsage (flags mod 1024) suffix /\
  (flags mod 1024 = 0 -> _FlagsToString BufferUsage flags suffix = suffix).
Proof.
  intros Hs.
  assert (Hclosed : forall f, _FlagsToString BufferUsage f suffix
                              = suffix +:+ usageSuffix BufferUsage f 0 10).
  { intros f. unfold _FlagsToString. apply flagsLoop_closed; [lia | lia | exact Hs]. }
  assert (Hlow : usageSuffix BufferUsage flags 0 10
                 = usageSuffix BufferUsage (flags mod 1024) 0 10).
  { apply usageSuffix_ext. intros k Hk. change 1024 with (2 ^ 10).
    symmetry. apply Z.mod_pow2_bits_low. lia. }
  split; [apply Hclosed |]. split.
  - rewrite !Hclosed, Hlow. reflexivity.
  - intros H0. rewrite Hclosed, Hlow, H0. cbn. apply string_app_nil_r.
Qed.

Lemma FlagsToString_lists_set_usage_bits_witness :
  _FlagsToString (fun v => if v =? 8 then "CopyDst" else if v =? 32 then "Vertex" else "Other")
                 40 "Buffer"
  = "Buffer" +:+ usageSuffix (fun v => if v =? 8 then "CopyDst"
                                       else if v =? 32 then "Vertex" else "Other") 40 0 10 /\
  _FlagsToString (fun v => if v =? 8 then "CopyDst" else if v =? 32 then "Vertex" else "Other")
                 40 "Buffer"
  = _FlagsToString (fun v => if v =? 8 then "CopyDst" else if v =? 32 then "Vertex" else "Other")
                   (40 mod 1024) "Buffer" /\
  (40 mod 1024 = 0 ->
   _FlagsToString (fun v => if v =? 8 then "CopyDst" else if v =? 32 then "Vertex" else "Other")
                  40 "Buffer" = "Buffer").
Proof.
  apply (FlagsToString_lists_set_usage_bits
           (fun v => if v =? 8 then "CopyDst" else if v =? 32 then "Vertex" else "Other")
           40 "Buffer").
  reflexivity.
Defined.

(** ** A destination that is too small *)

(** X15.  When the caller's destination has a backing buffer shorter than
    the mapped range, a converting read of byte or float type never
    settles: the copy into the destination raises [RangeError] inside the
    completion handler, the promise is neither resolved nor rejected, and
    the buffer is not released even if [destroyBuffer] was set. *)
Theorem read_into_short_destination_never_settles
        {Reason : Type} (FromHalfFloat : Z -> Z) (p : PendingRead) (s : State)
        (b : GPUBufferState) (dest : ArrayBufferView) :
  deviceBuffers s !! rd_gpuBuffer p = Some b ->
  destroyed b = false ->
  deviceConsistent s ->
  0 <= rd_offset p -> rd_offset p mod 8 = 0 ->
  0 <= rd_size p -> rd_size p mod 4 = 0 ->
  rd_offset p + rd_size p <= size b ->
  rd_buffer p = Some dest ->
  rd_noDataConversion p = false ->
  floatFormat (rd_type p) <> 1 ->
  byteLengthOf (Js.buffer dest) < rd_size p ->
  settle FromHalfFloat p (@MapFulfilled Reason) s = (Ok (Unsettled RangeError), s).
Proof.
  intros Hb Hlive Hwf Ho Ho8 Hn Hn4 Hfit Hdest Hconv Hkind Hshort.
  destruct (Hwf _ b Hb) as (_ & Hsize & _).
  cbn [settle]. unfold onMapFulfilled.
  rewrite (bind_ok _ _ s s _ (getMappedRange_ok _ b _ _ s Hb Hlive Ho Ho8 Hn Hn4 Hfit)).
  set (copy := take (Z.to_nat (rd_size p)) (drop (Z.to_nat (rd_offset p)) (contents b))).
  assert (Hcopy : byteLengthOf copy = rd_size p).
  { subst copy. unfold byteLengthOf in *. rewrite length_take, length_drop. lia. }
  assert (Hthrow : convertMapped FromHalfFloat (rd_type p) (rd_size p) copy (rd_buffer p)
                                 (rd_noDataConversion p) = Throw RangeError).
  { rewrite Hdest, Hconv. unfold convertMapped.
    assert (Hset : setBytes (Js.buffer dest) copy = Throw RangeError).
    { unfold setBytes. rewrite Hcopy.
      destruct (Z.ltb_spec (byteLengthOf (Js.buffer dest)) (rd_size p)); [reflexivity | lia]. }
    destruct (Z.eqb_spec (floatFormat (rd_type p)) 0) as [H0 | H0].
    - unfold wholeBufferSet, wholeElements. rewrite !Z.mod_1_r. cbn [Z.eqb obind].
      rewrite Hset. reflexivity.
    - destruct (Z.eqb_spec (floatFormat (rd_type p)) 1) as [H1 | H1]; [contradiction |].
      unfold wholeBufferSet, wholeElements.
      destruct (byteLengthOf (Js.buffer dest) mod 4 =? 0); [| reflexivity].
      cbn [obind]. destruct (byteLengthOf copy mod 4 =? 0); [| reflexivity].
      cbn [obind]. rewrite Hset. reflexivity. }
  rewrite Hthrow. reflexivity.
Qed.

Lemma read_into_short_destination_never_settles_witness :
  settle (fun h => h)
         (mkPendingRead 0%nat 24 6 1 24 24 TEXTURETYPE_UNSIGNED_BYTE 0
                        (Some sampleDestination) true false 7)
         (@MapFulfilled unit)
         (snd (createBuffer (OfSize 32) 0 (constructor sampleEngine)))
  = (Ok (Unsettled RangeError), snd (createBuffer (OfSize 32) 0 (constructor sampleEngine))).
Proof.
  apply (@read_into_short_destination_never_settles unit (fun h => h)
           (mkPendingRead 0%nat 24 6 1 24 24 TEXTURETYPE_UNSIGNED_BYTE 0
                          (Some sampleDestination) true false 7)
           (snd (createBuffer (OfSize 32) 0 (constructor sampleEngine)))
           (mkGPUBufferState 32 (replicate 32 x00) false) sampleDestination);
    try (apply consistent_createBuffer, constructor_consistent); try by_compute.
Defined.

(** * Diffusion profiles *)

Section DiffusionProfiles.

Context {Num : Type}.
Variable strictEquals : Num -> Num -> bool.
Variable mathMax : Num -> Num -> Num.
Variable getDiffusionProfileParameters : Color3 Num -> Num.

Abbreviation add := (addDiffusionProfile strictEquals mathMax getDiffusionProfileParameters).
Abbreviation derived := (profilesDerived mathMax getDiffusionProfileParameters).

Lemma length_stored (colors : list (Color3 Num)) :
  length (flat_map (fun c => [col_r c; col_b c; col_g c]) colors) = (3 * length colors)%nat.
Proof. induction colors as [| c colors IH]; cbn [flat_map length app]; lia. Qed.

Lemma sameProfile_in_range (S : list Num) (i : nat) (color : Color3 Num) :
  sameProfile strictEquals S i color = true -> (i * 3 + 2 < length S)%nat.
Proof.
  unfold sameProfile. intros H.
  destruct (S !! (i * 3)%nat); [| discriminate H].
  destruct (S !! (i * 3 + 1)%nat); [| discriminate H].
  destruct (S !! (i * 3 + 2)%nat) eqn:Hz; [| discriminate H].
  apply lookup_lt_Some in Hz. exact Hz.
Qed.

Lemma sameProfile_app (S T : list Num) (i : nat) (color : Color3 Num) :
  (i * 3 + 2 < length S)%nat ->
  sameProfile strictEquals (S ++ T) i color = sameProfile strictEquals S i color.
Proof.
  intros Hi. unfold sameProfile. rewrite !lookup_app_l by lia. reflexivity.
Qed.

Lemma sameProfile_appended (S : list Num) (k : nat) (x y z : Num) (color : Color3 Num) :
  length S = (3 * k)%nat ->
  sameProfile strictEquals (S ++ [x; y; z]) k color
  = strictEquals x (col_r color) && strictEquals y (col_g color)
    && strictEquals z (col_b color).
Proof.
  intros Hlen. unfold sameProfile.
  rewrite !lookup_app_r by lia.
  replace (k * 3 - length S)%nat with 0%nat by lia.
  replace (k * 3 + 1 - length S)%nat with 1%nat by lia.
  replace (k * 3 + 2 - length S)%nat with 2%nat by lia.
  reflexivity.
Qed.

Lemma findProfile_spec (count i0 : nat) (S : list Num) (color : Color3 Num) :
  match findProfile strictEquals count i0 S color with
  | Some i =>
      sameProfile strictEquals S i color = true /\ (i0 <= i < i0 + count)%nat /\
      (forall j, (i0 <= j < i)%nat -> sameProfile strictEquals S j color = false)
  | None => forall j, (i0 <= j < i0 + count)%nat -> sameProfile strictEquals S j color = false
  end.
Proof.
  revert i0. induction count as [| count IH]; intros i0; cbn [findProfile].
  - intros j Hj. lia.
  - destruct (sameProfile strictEquals S i0 color) eqn:Hsame.
    + split; [exact Hsame |]. split; [lia |]. intros j Hj. lia.
    + specialize (IH (i0 + 1)%nat).
      destruct (findProfile strictEquals count (i0 + 1) S color) as [i |].
      * destruct IH as (H1 & H2 & H3). split; [exact H1 |]. split; [lia |].
        intros j Hj. destruct (Nat.eq_dec j i0) as [-> | Hne]; [exact Hsame | apply H3; lia].
      * intros j Hj. destruct (Nat.eq_dec j i0) as [-> | Hne]; [exact Hsame | apply IH; lia].
Qed.

Lemma findProfile_first (count i0 i : nat) (S : list Num) (color : Color3 Num) :
  (i0 <= i < i0 + count)%nat ->
  sameProfile strictEquals S i color = true ->
  (forall j, (i0 <= j < i)%nat -> sameProfile strictEquals S j color = false) ->
  findProfile strictEquals count i0 S color = Some i.
Proof.
  intros Hi Hsame Hbefore.
  pose proof (findProfile_spec count i0 S color) as Hspec.
  destruct (findProfile strictEquals count i0 S color) as [k |].
  - destruct Hspec as (Hk & Hrange & Hfirst). f_equal.
    destruct (Nat.lt_trichotomy k i) as [Hlt | [Heq | Hgt]]; [| exact Heq |].
    + rewrite Hbefore in Hk by lia. discriminate Hk.
    + rewrite Hfirst in Hsame by lia. discriminate Hsame.
  - rewrite Hspec in Hsame by lia. discriminate Hsame.
Qed.

Lemma derived_lengths (this : SubSurfaceConfiguration Num) :
  derived this ->
  length (_ssDiffusionS this) = (3 * length (ssDiffusionProfileColors this))%nat /\
  length (_ssDiffusionD this) = length (ssDiffusionProfileColors this) /\
  length (_ssFilterRadii this) = length (ssDiffusionProfileColors this).
Proof.
  intros (HS & HD & HR & _). rewrite HS, HD, HR, length_stored, !length_map. auto.
Qed.

(** What a call of [addDiffusionProfile] can do to a configuration in
    step. *)
Lemma add_cases (color : Color3 Num) (this : SubSurfaceConfiguration Num) :
  derived this ->
  let colors := ssDiffusionProfileColors this in
  (* full *)
  ((5 <= length colors)%nat /\ fst (add color this) = 0%nat /\
   ssDiffusionProfileColors (snd (add color this)) = colors /\
   derived (snd (add color this))) \/
  (* already stored *)
  ((length colors < 5)%nat /\ add color this = (fst (add color this), this) /\
   (fst (add color this) < length colors)%nat /\
   sameProfile strictEquals (_ssDiffusionS this) (fst (add color this)) color = true) \/
  (* stored now *)
  ((length colors < 5)%nat /\ fst (add color this) = length colors /\
   ssDiffusionProfileColors (snd (add color this)) = colors ++ [color] /\
   loggedErrors (snd (add color this)) = loggedErrors this /\
   derived (snd (add color this)) /\
   (forall j, (j < length colors)%nat ->
              sameProfile strictEquals (_ssDiffusionS this) j color = false)).
Proof.
  intros Hder colors.
  destruct (derived_lengths this Hder) as (HlenS & HlenD & HlenR).
  destruct Hder as (HS & HD & HR & Hmax). fold colors in HS, HD, HR, Hmax, HlenS, HlenD, HlenR.
  unfold addDiffusionProfile.
  destruct (Nat.leb_spec 5 (length (_ssDiffusionD this))) as [Hfull | Hroom].
  - left. cbn [fst snd ssDiffusionProfileColors]. split; [lia |]. split; [reflexivity |].
    split; [reflexivity |].
    unfold profilesDerived. cbn. fold colors. auto.
  - right.
    pose proof (findProfile_spec ((length (_ssDiffusionS this) + 2) / 3) 0
                  (_ssDiffusionS this) color) as Hspec.
    assert (Hcount : ((length (_ssDiffusionS this) + 2) / 3 = length colors)%nat).
    { rewrite HlenS. replace (3 * length colors + 2)%nat with (2 + length colors * 3)%nat by lia.
      rewrite Nat.div_add by lia. reflexivity. }
    rewrite Hcount in Hspec |- *.
    destruct (findProfile strictEquals (length colors) 0 (_ssDiffusionS this) color) as [i |].
    + left. destruct Hspec as (Hsame & Hrange & _). cbn [fst snd].
      split; [lia |]. split; [reflexivity |]. split; [lia | exact Hsame].
    + right. cbn [fst snd ssDiffusionProfileColors loggedErrors _ssDiffusionD].
      split; [lia |]. split; [rewrite length_app; cbn [length]; lia |].
      split; [reflexivity |]. split; [reflexivity |]. split.
      * unfold profilesDerived. cbn. fold colors.
        rewrite flat_map_app, !map_app, length_app. cbn.
        rewrite HS, HD, HR. repeat split; try reflexivity. lia.
      * intros j Hj. apply Hspec. lia.
Qed.

Lemma derived_add (color : Color3 Num) (this : SubSurfaceConfiguration Num) :
  derived this -> derived (snd (add color this)).
Proof.
  intros Hder.
  destruct (add_cases color this Hder) as [(_ & _ & _ & H) | [(_ & Heq & _) | (_ & _ & _ & _ & H & _)]].
  - exact H.
  - rewrite Heq. exact Hder.
  - exact H.
Qed.

Lemma derived_clear (this : SubSurfaceConfiguration Num) :
  derived (clearAllDiffusionProfiles this).
Proof. unfold profilesDerived. cbn. repeat split; try reflexivity. lia. Qed.

Lemma derived_run (ops : list (ProfileOp Num)) (this : SubSurfaceConfiguration Num) :
  derived this ->
  derived (runProfiles strictEquals mathMax getDiffusionProfileParameters ops this).
Proof.
  revert this. induction ops as [| [color |] ops IH]; intros this Hder; cbn [runProfiles].
  - exact Hder.
  - apply IH, derived_add, Hder.
  - apply IH, derived_clear.
Qed.

Lemma derived_noProfiles : derived noProfiles.
Proof. unfold profilesDerived. cbn. repeat split; try reflexivity. lia. Qed.

(** X16.  However profiles are added and cleared after construction,
    there are never more than five of them, and the three numeric arrays
    stay in step with the stored colours: three entries of
    [_ssDiffusionS] (red, blue, green, in this order), one of
    [_ssDiffusionD] (the largest channel) and one filter radius per
    colour. *)
Theorem diffusion_profiles_stay_in_step
        (one : Num) (ops : list (ProfileOp Num)) :
  let this := runProfiles strictEquals mathMax getDiffusionProfileParameters ops
                (newSubSurfaceConfiguration strictEquals mathMax
                   getDiffusionProfileParameters one) in
  (length (ssDiffusionProfileColors this) <= 5)%nat /\
  _ssDiffusionS this
  = flat_map (fun c => [col_r c; col_b c; col_g c]) (ssDiffusionProfileColors this) /\
  _ssDiffusionD this
  = map (fun c => mathMax (mathMax (col_r c) (col_b c)) (col_g c))
        (ssDiffusionProfileColors this) /\
  _ssFilterRadii this = map getDiffusionProfileParameters (ssDiffusionProfileColors this).
Proof.
  intros this.
  assert (Hder : derived this).
  { subst this. apply derived_run. unfold newSubSurfaceConfiguration.
    apply derived_add, derived_noProfiles. }
  destruct Hder as (HS & HD & HR & Hmax). auto.
Qed.

(** X17.  On a configuration in step, [addDiffusionProfile] returns a
    valid profile index: the index is below the number of profiles held
    after the call, earlier profiles keep their place, and at most one
    colour, the one given, is appended, in which case the index returned is
    the new last one. *)
Theorem addDiffusionProfile_returns_valid_index
        (color : Color3 Num) (this : SubSurfaceConfiguration Num) :
  derived this ->
  let result := add color this in
  (fst result < length (ssDiffusionProfileColors (snd result)))%nat /\
  (ssDiffusionProfileColors (snd result) = ssDiffusionProfileColors this \/
   ssDiffusionProfileColors (snd result) = ssDiffusionProfileColors this ++ [color] /\
   fst result = length (ssDiffusionProfileColors this)).
Proof.
  intros Hder result. subst result.
  destruct (add_cases color this Hder)
    as [(Hfull & H0 & Hsame & _) | [(_ & Heq & Hlt & _) | (_ & Hi & Happ & _)]].
  - rewrite H0, Hsame. split; [lia | left; reflexivity].
  - rewrite Heq. cbn [fst snd]. split; [exact Hlt | left; reflexivity].
  - rewrite Hi, Happ, length_app. cbn [length]. split; [lia | right; auto].
Qed.

(** X18.  No doubles for greys: when a colour whose green and blue
    channels are equal has been added and fewer than five profiles are
    held, adding it again returns the same index and changes nothing. *)
Theorem addDiffusionProfile_again_returns_same_index
        (color : Color3 Num) (this : SubSurfaceConfiguration Num) :
  derived this ->
  strictEquals (col_r color) (col_r color) = true ->
  strictEquals (col_b color) (col_g color) = true ->
  strictEquals (col_g color) (col_b color) = true ->
  (length (ssDiffusionProfileColors (snd (add color this))) < 5)%nat ->
  add color (snd (add color this)) = add color this.
Proof.
  intros Hder Hr Hbg Hgb Hroom.
  destruct (derived_lengths this Hder) as (HlenS & HlenD & _).
  destruct (add_cases color this Hder)
    as [(Hfull & _ & Hsame & _) | [(_ & Heq & _) | (Hlt & Hi & Happ & Herr & Hder' & Hnone)]].
  - rewrite Hsame in Hroom. lia.
  - rewrite Heq at 1. cbn [snd]. reflexivity.
  - (* the colour has just been stored at the end *)
    assert (Hshape : add color this
                     = (length (ssDiffusionProfileColors this),
                        mkSubSurface
                          (_ssDiffusionS this ++ [col_r color; col_b color; col_g color])
                          (_ssFilterRadii this ++ [getDiffusionProfileParameters color])
                          (_ssDiffusionD this
                             ++ [mathMax (mathMax (col_r color) (col_b color)) (col_g color)])
                          (ssDiffusionProfileColors this ++ [color])
                          (loggedErrors this))).
    { revert Hi Happ. unfold addDiffusionProfile.
      destruct (Nat.leb_spec 5 (length (_ssDiffusionD this))) as [Hfull | _]; [lia |].
      destruct (findProfile _ _ _ _ _) as [i |]; cbn [fst snd].
      - intros _ Happ. exfalso.
        apply (f_equal length) in Happ. rewrite length_app in Happ. cbn in Happ. lia.
      - intros _ _. f_equal. cbn [_ssDiffusionD]. rewrite length_app. cbn [length]. lia. }
    rewrite Hshape in Hroom |- *. cbn [snd] in Hroom |- *.
    set (this' := mkSubSurface _ _ _ _ _) in *.
    unfold addDiffusionProfile at 1.
    assert (HlenD' : length (_ssDiffusionD this') = Datatypes.S (length (ssDiffusionProfileColors this))).
    { subst this'. cbn [_ssDiffusionD]. rewrite length_app. cbn [length]. lia. }
    assert (Hroom' : (length (ssDiffusionProfileColors this) + 1 < 5)%nat).
    { subst this'. cbn [ssDiffusionProfileColors] in Hroom.
      rewrite length_app in Hroom. exact Hroom. }
    destruct (Nat.leb_spec 5 (length (_ssDiffusionD this'))) as [Hfull | _]; [lia |].
    rewrite (findProfile_first _ 0 (length (ssDiffusionProfileColors this))).
    + reflexivity.
    + subst this'. cbn [_ssDiffusionS]. rewrite length_app. cbn [length]. rewrite HlenS.
      split; [lia |].
      replace (3 * length (ssDiffusionProfileColors this) + 3 + 2)%nat
        with (2 + Datatypes.S (length (ssDiffusionProfileColors this)) * 3)%nat by lia.
      rewrite Nat.div_add by lia. cbn. lia.
    + subst this'. cbn [_ssDiffusionS].
      rewrite sameProfile_appended by exact HlenS.
      rewrite Hr, Hbg, Hgb. reflexivity.
    + intros j Hj. subst this'. cbn [_ssDiffusionS].
      rewrite sameProfile_app by lia. apply Hnone. lia.
Qed.

End DiffusionProfiles.

Lemma addDiffusionProfile_returns_valid_index_witness :
  let this := newSubSurfaceConfiguration Z.eqb Z.max col_r 1 in
  let result := addDiffusionProfile Z.eqb Z.max col_r (mkColor3 2 3 4) this in
  (fst result < length (ssDiffusionProfileColors (snd result)))%nat /\
  (ssDiffusionProfileColors (snd result) = ssDiffusionProfileColors this \/
   ssDiffusionProfileColors (snd result) = ssDiffusionProfileColors this ++ [mkColor3 2 3 4] /\
   fst result = length (ssDiffusionProfileColors this)).
Proof.
  apply (addDiffusionProfile_returns_valid_index Z.eqb Z.max col_r (mkColor3 2 3 4)
           (newSubSurfaceConfiguration Z.eqb Z.max col_r 1)).
  unfold profilesDerived. repeat split; by_compute.
Defined.

Lemma addDiffusionProfile_again_returns_same_index_witness :
  addDiffusionProfile Z.eqb Z.max col_r (mkColor3 2 3 3)
    (snd (addDiffusionProfile Z.eqb Z.max col_r (mkColor3 2 3 3)
            (newSubSurfaceConfiguration Z.eqb Z.max col_r 1)))
  = addDiffusionProfile Z.eqb Z.max col_r (mkColor3 2 3 3)
      (newSubSurfaceConfiguration Z.eqb Z.max col_r 1).
Proof.
  apply (addDiffusionProfile_again_returns_same_index Z.eqb Z.max col_r (mkColor3 2 3 3)
           (newSubSurfaceConfiguration Z.eqb Z.max col_r 1)).
  - unfold profilesDerived. repeat split; by_compute.
  - reflexivity.
  - reflexivity.
  - reflexivity.
  - by_compute.
Defined.

(** * More on creation and on the temporary copy *)

Lemma createRawBuffer_cases (v : ViewOrSize) (flags : Z) (m : bool) (s : State) :
  (exists e, createRawBuffer v flags m s = (Throw e, s)) \/
  (exists fresh,
      createRawBuffer v flags m s
      = (Ok (deviceNext s),
         with_deviceNext (S (deviceNext s))
           (with_deviceBuffers (<[deviceNext s := fresh]> (deviceBuffers s)) s)) /\
      destroyed fresh = false).
Proof.
  unfold createRawBuffer, Device.createBuffer. cbn [desc_size desc_mappedAtCreation].
  destruct (alignedLength (requestedLength v) <? 0); [left; eexists; reflexivity |].
  destruct (m && negb (alignedLength (requestedLength v) mod 4 =? 0));
    [left; eexists; reflexivity |].
  right. eexists. split; reflexivity.
Qed.

(** X19.  Creating a buffer disturbs nothing that exists: every device
    buffer and every handle present before [createBuffer] is still there,
    unchanged, afterwards, whether the call returns or throws, and neither
    the deferred queue nor the record of destroyed buffers moves. *)
Theorem createBuffer_leaves_existing_alone
        (viewOrSize : ViewOrSize) (flags : Z) (s : State) :
  deviceConsistent s ->
  (forall r d, dataBuffers s !! r = Some d -> (r < dataBufferCounter s)%nat) ->
  let s' := snd (createBuffer viewOrSize flags s) in
  (forall g b, deviceBuffers s !! g = Some b -> deviceBuffers s' !! g = Some b) /\
  (forall r d, dataBuffers s !! r = Some d -> dataBuffers s' !! r = Some d) /\
  _deferredReleaseBuffers s' = _deferredReleaseBuffers s /\
  destroyCalls s' = destroyCalls s.
Proof.
  intros Hwf Hfresh s'.
  assert (Hhandles : forall r d, dataBuffers s !! r = Some d -> dataBuffers s' !! r = Some d).
  { intros r d Hd. subst s'.
    destruct (createBuffer_handles viewOrSize flags s) as (_ & Hold & _).
    rewrite Hold by (apply (Hfresh r d Hd)). exact Hd. }
  subst s'. unfold createBuffer in *. unfold bind, get, modify in *. cbn beta iota in *.
  set (s1 := with_dataBufferCounter (S (dataBufferCounter s)) s) in *.
  destruct (createRawBuffer_cases viewOrSize flags false s1)
    as [(e & Hthrow) | (fresh & Hok & Hlive)].
  - rewrite Hthrow in *. cbn [snd]. subst s1. cbn.
    split; [auto |]. split; [exact Hhandles |]. split; reflexivity.
  - rewrite Hok in *. cbn beta iota in *.
    set (raw := deviceNext s1) in *.
    match goal with
    | |- context [with_dataBuffers ?h ?st] => set (s3 := with_dataBuffers h st) in *
    end.
    set (m := match viewOrSize with
              | OfView v0 => setSubData (dataBufferCounter s) 0 v0 0 0
              | OfSize _ => ret tt
              end) in *.
    assert (Hs3dev : forall g b, deviceBuffers s !! g = Some b ->
                                 deviceBuffers s3 !! g = Some b /\ g <> raw).
    { intros g b Hb. destruct (Hwf g b Hb) as (Hlt & _).
      assert (Hne : deviceNext s <> g) by lia.
      split; [| subst raw s1; cbn; lia].
      subst s3 s1. cbn. rewrite lookup_insert_ne by exact Hne. exact Hb. }
    assert (Hm : (forall g b, deviceBuffers s !! g = Some b ->
                              deviceBuffers (snd (m s3)) !! g = Some b) /\
                 _deferredReleaseBuffers (snd (m s3)) = _deferredReleaseBuffers s /\
                 destroyCalls (snd (m s3)) = destroyCalls s).
    { subst m. destruct viewOrSize as [v | n].
      - assert (Hd3 : dataBuffers s3 !! dataBufferCounter s
                      = Some (mkDataBuffer raw 1 (requestedLength (OfView v))
                                (uniqueId (_engine (with_deviceNext (S (deviceNext s1))
                                   (with_deviceBuffers (<[deviceNext s1:=fresh]> (deviceBuffers s1)) s1))))))
          by (subst s3; cbn; apply lookup_insert_eq).
        assert (Hwf3 : deviceConsistent s3).
        { pose proof (consistent_createRawBuffer (OfView v) flags false s1) as Hc.
          rewrite Hok in Hc. cbn [snd] in Hc. intros g b Hb. apply Hc; [| exact Hb].
          intros g' b' Hb'. apply (Hwf g' b'). exact Hb'. }
        destruct (setSubData_frame (dataBufferCounter s) 0 v 0 0 s3 _ Hd3 Hwf3)
          as [(_ & _ & Hcalls & Hq & _ & _ & Hother & _) _].
        cbn [underlyingResource] in Hother.
        split; [| split; [rewrite Hq; reflexivity | rewrite Hcalls; reflexivity]].
        intros g b Hb. destruct (Hs3dev g b Hb) as [H3 Hne].
        rewrite Hother by exact Hne. exact H3.
      - cbn [ret snd]. split; [| split; reflexivity].
        intros g b Hb. apply (Hs3dev g b Hb). }
    destruct Hm as (Hdev & Hq & Hcalls).
    destruct (m s3) as [[[] | e] s4]; cbn [snd] in *;
      (split; [exact Hdev |]; split; [exact Hhandles |]; split; assumption).
Qed.

Lemma createBuffer_leaves_existing_alone_witness :
  let s' := snd (createBuffer (OfView (mkView [x0a; x14; x1e] 0 3)) 0 sampleManager) in
  (forall g b, deviceBuffers sampleManager !! g = Some b -> deviceBuffers s' !! g = Some b) /\
  (forall r d, dataBuffers sampleManager !! r = Some d -> dataBuffers s' !! r = Some d) /\
  _deferredReleaseBuffers s' = _deferredReleaseBuffers sampleManager /\
  destroyCalls s' = destroyCalls sampleManager.
Proof.
  apply (createBuffer_leaves_existing_alone (OfView (mkView [x0a; x14; x1e] 0 3)) 0 sampleManager).
  - exact sampleManager_consistent.
  - intros r d Hd.
    assert (Hstore : exists d0, dataBuffers sampleManager = <[0%nat := d0]> ∅)
      by (eexists; vm_compute; reflexivity).
    destruct Hstore as [d0 Hstore]. rewrite Hstore in Hd.
    destruct r as [| r].
    + vm_compute. lia.
    + rewrite lookup_insert_ne, lookup_empty in Hd by lia. discriminate Hd.
Defined.

(** X20.  On either path the write never loses the head of the data: when
    the call's windows fit, the first [n - startPre] bytes of the destination
    window read back as the first [n - startPre] bytes of the source window,
    where [n] is the effective length and [startPre] the destination
    offset's remainder modulo 4. *)
Theorem setSubData_window_head_reads_back
        (r : DataBufferRef) (dst : Z) (src : ArrayBufferView) (so bl : Z)
        (s : State) (d : WebGPUDataBuffer) (b : GPUBufferState) :
  let n := effectiveLength src so bl in
  let sp := startPre dst in
  let L := widenedLength n sp in
  let a := byteOffset src + so - sp in
  dataBuffers s !! r = Some d ->
  deviceBuffers s !! underlyingResource d = Some b ->
  destroyed b = false ->
  size b = byteLengthOf (contents b) ->
  0 <= dst -> sp <= n -> n + sp + 3 < 2 ^ 31 ->
  0 <= a -> a + n <= byteLengthOf (Js.buffer src) ->
  (L <= byteLengthOf (Js.buffer src) - byteOffset src -> a + L <= byteLengthOf (Js.buffer src)) ->
  dst - sp + L <= size b ->
  Device.readWindow (snd (setSubData r dst src so bl s)) (underlyingResource d) dst (n - sp)
  = Some (take (Z.to_nat (n - sp)) (drop (Z.to_nat (byteOffset src + so)) (Js.buffer src))).
Proof.
  intros n sp L a Hd Hb Hlive Hsize Hdst Hn Hwrap Ha Hwin Hdir Hfit.
  destruct (startPre_range dst) as [Hsp Hspm]. fold sp in Hsp, Hspm.
  assert (Hn0 : 0 <= n) by lia.
  destruct (setSubData_written r dst src so bl s d b Hd Hb Hlive Hdst Hn0 Hwrap Ha Hwin Hdir Hfit)
    as (es & Hes & Hrun).
  fold n sp L in Hes, Hrun. rewrite Hrun. cbn [snd].
  destruct (widenedLength_bounds n sp ltac:(lia)) as [HL HL4]. fold L in HL, HL4.
  assert (Hdst0 : 0 <= dst - sp).
  { rewrite Hspm. pose proof (Z.mod_le dst 4 Hdst ltac:(lia)). lia. }
  unfold Device.readWindow, Device.written. cbn [deviceBuffers with_deviceBuffers].
  rewrite lookup_insert_eq. cbn [mbind option_bind size contents].
  destruct (Z.ltb_spec dst 0); [lia |].
  destruct (Z.ltb_spec (n - sp) 0); [lia |].
  destruct (Z.ltb_spec (size b) (dst + (n - sp))); [lia |].
  cbn [orb]. f_equal.
  replace dst with ((dst - sp) + sp) at 1 by lia.
  destruct (Z_lt_le_dec (byteLengthOf (Js.buffer src) - byteOffset src) L) as [Hsmall | Hbig].
  - rewrite effectiveSource_scratch in Hes
      by (unfold a in *; first [lia | replace (byteOffset src + (so - sp)) with (byteOffset src + so - sp) by lia; lia]).
    injection Hes as <-. cbn [fst snd Js.buffer byteOffset].
    rewrite splice_window; try lia.
    + replace (Z.to_nat (0 + 0 + sp)) with (Z.to_nat sp) by lia.
      rewrite drop_app_le by (rewrite length_take, length_drop; unfold byteLengthOf, a in *; lia).
      rewrite take_app_le
        by (rewrite length_drop, length_take, length_drop; unfold byteLengthOf, a in *; lia).
      replace (Z.to_nat n) with (Z.to_nat sp + Z.to_nat (n - sp))%nat by lia.
      rewrite <- take_drop_commute, drop_drop, take_take.
      f_equal; [lia | f_equal; unfold a; lia].
    + unfold byteLengthOf.
      rewrite length_app, length_replicate, length_take, length_drop.
      unfold byteLengthOf, a in *. lia.
  - rewrite effectiveSource_direct in Hes by exact Hbig.
    injection Hes as <-. cbn [fst snd].
    specialize (Hdir Hbig).
    rewrite splice_window; try (unfold a in *; lia).
    do 2 f_equal. lia.
Qed.

Lemma setSubData_window_head_reads_back_witness :
  Device.readWindow
    (snd (setSubData 0%nat 1 (mkView [x0a; x14; x1e] 0 3) 1 2 sampleManager)) 0%nat 1 (2 - 1)
  = Some (take (Z.to_nat (2 - 1)) (drop (Z.to_nat (0 + 1)) [x0a; x14; x1e])).
Proof.
  apply (setSubData_window_head_reads_back 0%nat 1 (mkView [x0a; x14; x1e] 0 3) 1 2
           sampleManager (mkDataBuffer 0%nat 1 8 7)
           (mkGPUBufferState 8 (replicate 8 x00) false));
    try by_compute.
  vm_compute. intro H. exfalso. apply H. reflexivity.
Defined.
